(** * Nya: a line-buffer text editor inside a cat-shaped frame (src/nyan.py)

    A shallow embedding of [TextEditor] and [CatEditor] and the properties
    of the editing model, the scroll clamp, the layout arithmetic, the exit
    confirmation and the persistence routines.

    Conventions.
    - Python integers are [Z].  A Python [str] is the list of its code
      points, so a line is a [list Z] and the document is a [list line].
    - A call that may raise returns a [result]; exceptions that the source
      catches are handled where the source handles them.
    - The curses screen is reduced to what the code reads from it: the
      size ([getmaxyx]) and the keys ([getch]).  Painting is left out. *)

From Stdlib Require Import ZArith String Ascii Lia.
From stdpp Require Import base tactics option list strings gmap.

Local Open Scope Z_scope.

(** ** Exceptions and results *)

Inductive exn :=
  | IndexError
  | ValueError
  | FileNotFoundError (path : string)
  | PermissionError (path : string)
  | IsADirectoryError (path : string).

Inductive result (A : Type) :=
  | Ok (a : A)
  | Raise (e : exn).
Arguments Ok {A} a.
Arguments Raise {A} e.

#[global] Instance result_ret : MRet result := fun A a => Ok a.
#[global] Instance result_bind : MBind result := fun A B f m =>
  match m with
  | Ok a => f a
  | Raise e => Raise e
  end.

(** ** Python primitives used by the editor *)

Module Py.

Definition len {A} (l : list A) : Z := Z.of_nat (length l).

(** Index of a subscript [l[i]]: negative indices count from the end,
    anything outside [-len, len) is an [IndexError]. *)
Definition index (n i : Z) : result nat :=
  if bool_decide (0 <= i < n) then Ok (Z.to_nat i)
  else if bool_decide (- n <= i < 0) then Ok (Z.to_nat (i + n))
  else Raise IndexError.

(** Bound of a slice [l[:i]] or [l[i:]], and of [list.insert]: negative
    bounds count from the end, and the result is clipped to [0, len]. *)
Definition bound (n i : Z) : nat :=
  Z.to_nat (if bool_decide (i < 0) then Z.max 0 (i + n) else Z.min i n).

Definition getitem {A} (l : list A) (i : Z) : result A :=
  k ← index (len l) i;
  match l !! k with
  | Some x => Ok x
  | None => Raise IndexError
  end.

Definition setitem {A} (l : list A) (i : Z) (v : A) : result (list A) :=
  k ← index (len l) i;
  Ok (<[k := v]> l).

Definition slice_to {A} (l : list A) (i : Z) : list A :=
  take (bound (len l) i) l.

Definition slice_from {A} (l : list A) (i : Z) : list A :=
  drop (bound (len l) i) l.

Definition insert {A} (l : list A) (i : Z) (v : A) : list A :=
  take (bound (len l) i) l ++ v :: drop (bound (len l) i) l.

Definition pop {A} (l : list A) (i : Z) : result (list A) :=
  k ← index (len l) i;
  Ok (delete k l).

(** [chr(ch)]: a one-character string, [ValueError] outside the range of
    code points. *)
Definition chr (ch : Z) : result (list Z) :=
  if bool_decide (0 <= ch <= 1114111) then Ok [ch] else Raise ValueError.

(** Code point of an ASCII character, [ord('y')] and the like. *)
Definition ord (c : ascii) : Z := Z.of_N (N_of_ascii c).

(** A string literal as a Python [str]. *)
Definition str (s : string) : list Z := map ord (list_ascii_of_string s).

Definition LF : Z := 10.
Definition CR : Z := 13.

(** [s.rstrip('\n')]: every trailing line feed is removed. *)
Fixpoint rstrip_lf (s : list Z) : list Z :=
  match s with
  | [] => []
  | c :: r =>
      match rstrip_lf r with
      | [] => if bool_decide (c = LF) then [] else [c]
      | r' => c :: r'
      end
  end.

End Py.

(** ** TextEditor *)

Abbreviation line := (list Z).

Record TextEditor := mkTextEditor {
  filename : option string;
  text : list line;
  cursor_x : Z;
  cursor_y : Z;
  scroll_y : Z;
  status_message : string;
  status_timer : Z;
  modified : bool
}.

Definition with_text (t : list line) (s : TextEditor) : TextEditor :=
  mkTextEditor (filename s) t (cursor_x s) (cursor_y s) (scroll_y s)
    (status_message s) (status_timer s) (modified s).

Definition with_cursor_x (x : Z) (s : TextEditor) : TextEditor :=
  mkTextEditor (filename s) (text s) x (cursor_y s) (scroll_y s)
    (status_message s) (status_timer s) (modified s).

Definition with_cursor_y (y : Z) (s : TextEditor) : TextEditor :=
  mkTextEditor (filename s) (text s) (cursor_x s) y (scroll_y s)
    (status_message s) (status_timer s) (modified s).

Definition with_scroll_y (y : Z) (s : TextEditor) : TextEditor :=
  mkTextEditor (filename s) (text s) (cursor_x s) (cursor_y s) y
    (status_message s) (status_timer s) (modified s).

Definition with_modified (m : bool) (s : TextEditor) : TextEditor :=
  mkTextEditor (filename s) (text s) (cursor_x s) (cursor_y s) (scroll_y s)
    (status_message s) (status_timer s) m.

(** [set_status_message(msg, ttl=5)] *)
Definition set_status_message (msg : string) (ttl : Z) (s : TextEditor)
  : TextEditor :=
  mkTextEditor (filename s) (text s) (cursor_x s) (cursor_y s) (scroll_y s)
    msg ttl (modified s).

(** [if not self.text: self.text = [""]] *)
Definition ensure_line (s : TextEditor) : TextEditor :=
  match text s with
  | [] => with_text [[]] s
  | _ => s
  end.

Definition insert_char (ch : Z) (s : TextEditor) : result TextEditor :=
  let s := ensure_line s in
  current_line ← Py.getitem (text s) (cursor_y s);
  c ← Py.chr ch;
  t ← Py.setitem (text s) (cursor_y s)
        (Py.slice_to current_line (cursor_x s) ++ c
           ++ Py.slice_from current_line (cursor_x s));
  Ok (with_modified true (with_cursor_x (cursor_x s + 1) (with_text t s))).

Definition insert_newline (s : TextEditor) : result TextEditor :=
  let s := ensure_line s in
  current_line ← Py.getitem (text s) (cursor_y s);
  t ← Py.setitem (text s) (cursor_y s) (Py.slice_to current_line (cursor_x s));
  let t := Py.insert t (cursor_y s + 1) (Py.slice_from current_line (cursor_x s)) in
  Ok (with_modified true
        (with_cursor_x 0 (with_cursor_y (cursor_y s + 1) (with_text t s)))).

Definition delete_char (s : TextEditor) : result TextEditor :=
  match text s with
  | [] => Ok s
  | _ =>
      current_line ← Py.getitem (text s) (cursor_y s);
      if bool_decide (cursor_x s > 0) then
        t ← Py.setitem (text s) (cursor_y s)
              (Py.slice_to current_line (cursor_x s - 1)
                 ++ Py.slice_from current_line (cursor_x s));
        Ok (with_modified true (with_cursor_x (cursor_x s - 1) (with_text t s)))
      else if bool_decide (cursor_y s > 0) then
        prev_line ← Py.getitem (text s) (cursor_y s - 1);
        t ← Py.setitem (text s) (cursor_y s - 1) (prev_line ++ current_line);
        t ← Py.pop t (cursor_y s);
        Ok (with_modified true
              (with_cursor_y (cursor_y s - 1)
                 (with_cursor_x (Py.len prev_line) (with_text t s))))
      else Ok s
  end.

(** ** Keys

    The values of the [curses.KEY_*] constants the editor compares with, as
    ncurses defines them. *)

Module Key.
Definition DOWN : Z := 258.
Definition UP : Z := 259.
Definition LEFT : Z := 260.
Definition RIGHT : Z := 261.
Definition HOME : Z := 262.
Definition BACKSPACE : Z := 263.
Definition DC : Z := 330.
Definition END : Z := 360.
End Key.

Definition move_cursor (key : Z) (s : TextEditor) : result TextEditor :=
  if bool_decide (key = Key.RIGHT) then
    l ← Py.getitem (text s) (cursor_y s);
    if bool_decide (cursor_x s < Py.len l) then
      Ok (with_cursor_x (cursor_x s + 1) s)
    else if bool_decide (cursor_y s < Py.len (text s) - 1) then
      Ok (with_cursor_x 0 (with_cursor_y (cursor_y s + 1) s))
    else Ok s
  else if bool_decide (key = Key.LEFT) then
    if bool_decide (cursor_x s > 0) then
      Ok (with_cursor_x (cursor_x s - 1) s)
    else if bool_decide (cursor_y s > 0) then
      l ← Py.getitem (text s) (cursor_y s - 1);
      Ok (with_cursor_x (Py.len l) (with_cursor_y (cursor_y s - 1) s))
    else Ok s
  else if bool_decide (key = Key.UP) then
    if bool_decide (cursor_y s > 0) then
      l ← Py.getitem (text s) (cursor_y s - 1);
      Ok (with_cursor_x (Z.min (cursor_x s) (Py.len l))
            (with_cursor_y (cursor_y s - 1) s))
    else Ok s
  else if bool_decide (key = Key.DOWN) then
    if bool_decide (cursor_y s < Py.len (text s) - 1) then
      l ← Py.getitem (text s) (cursor_y s + 1);
      Ok (with_cursor_x (Z.min (cursor_x s) (Py.len l))
            (with_cursor_y (cursor_y s + 1) s))
    else Ok s
  else if bool_decide (key = Key.HOME) then
    Ok (with_cursor_x 0 s)
  else if bool_decide (key = Key.END) then
    l ← Py.getitem (text s) (cursor_y s);
    Ok (with_cursor_x (Py.len l) s)
  else Ok s.

(** ** The file store

    Files are kept as decoded text (the codec is taken to be lossless), a
    path names a regular file with its permission bits or a directory, and
    opening is the only point where the store refuses an operation. *)

Inductive node :=
  | Regular (content : list Z) (readable writable : bool)
  | Directory.

(** [open(path, 'r')] followed by reading the raw text. *)
Definition open_read (fs : gmap string node) (path : string) : result (list Z) :=
  match fs !! path with
  | None => Raise (FileNotFoundError path)
  | Some Directory => Raise (IsADirectoryError path)
  | Some (Regular c r _) => if r then Ok c else Raise (PermissionError path)
  end.

(** [open(path, 'w')]: the file is created or truncated. *)
Definition open_write (fs : gmap string node) (path : string)
  : result (gmap string node) :=
  match fs !! path with
  | None => Ok (<[path := Regular [] true true]> fs)
  | Some Directory => Raise (IsADirectoryError path)
  | Some (Regular _ r w) =>
      if w then Ok (<[path := Regular [] r w]> fs)
      else Raise (PermissionError path)
  end.

(** [file.write(data)] on a file opened for writing. *)
Definition write (path : string) (fs : gmap string node) (data : list Z)
  : gmap string node :=
  match fs !! path with
  | Some (Regular c r w) => <[path := Regular (c ++ data) r w]> fs
  | _ => fs
  end.

(** Text mode with the default [newline=None] reads with universal
    newlines: a carriage return, alone or followed by a line feed, comes
    out as one line feed. *)
Fixpoint universal_newlines (s : list Z) : list Z :=
  match s with
  | [] => []
  | c :: r =>
      if bool_decide (c = Py.CR) then
        Py.LF :: match r with
                 | c' :: r' =>
                     if bool_decide (c' = Py.LF) then universal_newlines r'
                     else universal_newlines r
                 | [] => []
                 end
      else c :: universal_newlines r
  end.

(** The lines of a text, each with its line feed when it has one. *)
Fixpoint split_keepends (s : list Z) : list (list Z) :=
  match s with
  | [] => []
  | c :: r =>
      if bool_decide (c = Py.LF) then [c] :: split_keepends r
      else match split_keepends r with
           | [] => [[c]]
           | l :: ls => (c :: l) :: ls
           end
  end.

(** [file.readlines()] *)
Definition readlines (content : list Z) : list (list Z) :=
  split_keepends (universal_newlines content).

(** ** Loading and saving *)

(** [if self.filename:] holds for a string that is not empty. *)
Definition named (f : option string) : option string :=
  match f with
  | Some EmptyString => None
  | o => o
  end.

(** [str(e)] of the errors of the file store. *)
Definition exn_str (e : exn) : string :=
  match e with
  | IndexError => "list index out of range"
  | ValueError => "chr() arg not in range(0x110000)"
  | FileNotFoundError p => "[Errno 2] No such file or directory: '" +:+ p +:+ "'"
  | PermissionError p => "[Errno 13] Permission denied: '" +:+ p +:+ "'"
  | IsADirectoryError p => "[Errno 21] Is a directory: '" +:+ p +:+ "'"
  end.

Definition load_file (fs : gmap string node) (s : TextEditor) : result TextEditor :=
  match named (filename s) with
  | Some path =>
      match open_read fs path with
      | Ok content =>
          let t := map Py.rstrip_lf (readlines content) in
          Ok (set_status_message ("Read file: " +:+ path) 5 (with_text t s))
      | Raise (FileNotFoundError _) =>
          Ok (set_status_message ("New file: " +:+ path) 5 (with_text [[]] s))
      | Raise e => Raise e
      end
  | None => Ok (set_status_message "New buffer" 5 (with_text [[]] s))
  end.

(** [TextEditor.__init__] *)
Definition TextEditor_init (fs : gmap string node) (name : option string)
  : result TextEditor :=
  load_file fs (mkTextEditor name [] 0 0 0 "" 0 false).

(** The body of the [try] in [save_file]. *)
Definition save_body (fs : gmap string node) (path : string) (t : list line)
  : result (gmap string node) :=
  fs ← open_write fs path;
  Ok (foldl (fun fs l => write path fs (l ++ [Py.LF])) fs t).

(** [save_file]: the answer, the store and the editor afterwards.  The
    handler is [except Exception], which takes every [exn]. *)
Definition save_file (fs : gmap string node) (s : TextEditor)
  : result (bool * gmap string node * TextEditor) :=
  match named (filename s) with
  | None => Ok (false, fs, s)
  | Some path =>
      match save_body fs path (text s) with
      | Ok fs' =>
          Ok (true, fs',
              set_status_message ("Saved: " +:+ path) 5 (with_modified false s))
      | Raise e =>
          Ok (false, fs, set_status_message ("Error saving: " +:+ exn_str e) 5 s)
      end
  end.

(** ** The terminal and the layout *)

(** What the program reads from the outside: the file store, the size of
    the screen ([getmaxyx]) and the keys ([getch] takes the next one). *)
Record world := mkWorld {
  files : gmap string node;
  height : Z;
  width : Z;
  input : nat -> Z;
  consumed : nat
}.

Definition with_files (fs : gmap string node) (w : world) : world :=
  mkWorld fs (height w) (width w) (input w) (consumed w).

Definition getch (w : world) : Z * world :=
  (input w (consumed w),
   mkWorld (files w) (height w) (width w) (input w) (S (consumed w))).

(** The attributes [CatEditor.__init__] sets once and nothing changes. *)
Definition min_editor_lines : Z := 5.
Definition cat_head_height : Z := 3.
Definition cat_bottom_height : Z := 4.

Definition calculate_editor_space (w : world) (s : TextEditor) : Z :=
  let max_available := height w - cat_head_height - cat_bottom_height - 1 in
  let desired_lines := Py.len (text s) + 5 in
  let editor_lines := Z.min desired_lines max_available in
  Z.max editor_lines min_editor_lines.

(** The two adjustments of [scroll_if_needed], for a given height of the
    editor area. *)
Definition scroll_to_cursor (editor_height : Z) (s : TextEditor) : TextEditor :=
  let s :=
    if bool_decide (cursor_y s - scroll_y s >= editor_height)
    then with_scroll_y (cursor_y s - editor_height + 1) s else s in
  if bool_decide (cursor_y s < scroll_y s)
  then with_scroll_y (cursor_y s) s else s.

(** [scroll_if_needed], with the back-reference to the [CatEditor] in place
    as [CatEditor.__init__] leaves it. *)
Definition scroll_if_needed (w : world) (s : TextEditor) : TextEditor :=
  scroll_to_cursor (calculate_editor_space w s) s.

(** The rows [draw_cat] hands to [TextEditor.draw], or [None] where it
    gives up on a terminal that is too small. *)
Definition draw_cat (w : world) (s : TextEditor) : option (Z * Z) :=
  if bool_decide (height w < 10 \/ width w < 50) then None
  else
    let editor_lines := calculate_editor_space w s in
    let editor_start_row := cat_head_height in
    let editor_end_row := editor_start_row + editor_lines in
    let editor_end_row :=
      if bool_decide (editor_end_row >= height w - cat_bottom_height)
      then height w - cat_bottom_height else editor_end_row in
    Some (editor_start_row, editor_end_row).

(** ** Keys pressed *)

(** The last lines of [process_keypress]: the cursor is put back in bounds
    and the scroll follows. *)
Definition clamp_cursor (s : TextEditor) : result TextEditor :=
  let s :=
    if bool_decide (cursor_y s >= Py.len (text s))
    then with_cursor_y (Py.len (text s) - 1) s else s in
  l ← Py.getitem (text s) (cursor_y s);
  Ok (if bool_decide (cursor_x s > Py.len l)
      then with_cursor_x (Py.len l) s else s).

Definition is_motion (key : Z) : bool :=
  bool_decide (key = Key.RIGHT) || bool_decide (key = Key.LEFT)
  || bool_decide (key = Key.UP) || bool_decide (key = Key.DOWN)
  || bool_decide (key = Key.HOME) || bool_decide (key = Key.END).

(** [process_keypress]: the value returned, with the world and the editor
    afterwards. *)
Definition process_keypress (key : Z) (w : world) (s : TextEditor)
  : result (bool * world * TextEditor) :=
  let finish (w : world) (r : result TextEditor) :=
    s ← r; s ← clamp_cursor s; Ok (true, w, scroll_if_needed w s) in
  if is_motion key then finish w (move_cursor key s)
  else if bool_decide (key = 10 \/ key = 13) then finish w (insert_newline s)
  else if bool_decide (key = 127 \/ key = Key.BACKSPACE) then
    finish w (delete_char s)
  else if bool_decide (key = Key.DC) then finish w (Ok s)
  else if bool_decide (key = 24) then
    if modified s then
      let s := set_status_message "Save modified buffer? (y/n)" 100 s in
      let '(confirm, w) := getch w in
      if bool_decide (confirm = Py.ord "y" \/ confirm = Py.ord "Y") then
        match save_file (files w) s with
        | Ok (saved, fs, s) =>
            if saved then Ok (false, with_files fs w, s)
            else Ok (true, with_files fs w, s)
        | Raise e => Raise e
        end
      else if bool_decide (~ (confirm = Py.ord "n" \/ confirm = Py.ord "N")) then
        Ok (true, w, set_status_message "Cancelled exit" 5 s)
      else Ok (false, w, s)
    else Ok (false, w, s)
  else if bool_decide (key = 19) then
    match save_file (files w) s with
    | Ok (_, fs, s) => finish (with_files fs w) (Ok s)
    | Raise e => Raise e
    end
  else if bool_decide (32 <= key <= 126) then finish w (insert_char key s)
  else finish w (Ok s).

(** ** CatEditor *)

Record CatEditor := mkCatEditor {
  editor : TextEditor;
  running : bool
}.

(** [CatEditor.__init__] *)
Definition CatEditor_init (w : world) (name : option string) : result CatEditor :=
  e ← TextEditor_init (files w) name;
  Ok (mkCatEditor e true).

(** What [run] does with a key it has read. *)
Definition handle_key (key : Z) (w : world) (c : CatEditor)
  : result (world * CatEditor) :=
  let e := editor c in
  if bool_decide (key = Py.ord "q" \/ key = 17) then
    if modified e then
      Ok (w, mkCatEditor
               (set_status_message "Modified buffer exists! Use Ctrl+X to exit" 5 e)
               (running c))
    else Ok (w, mkCatEditor e false)
  else if bool_decide (key = 24) then
    if modified e then
      let e := set_status_message "Save modified buffer? (Y/n)" 5 e in
      let '(ch, w) := getch w in
      if bool_decide (ch = Py.ord "y" \/ ch = Py.ord "Y" \/ ch = 10) then
        match save_file (files w) e with
        | Ok (saved, fs, e) =>
            if saved then Ok (with_files fs w, mkCatEditor e false)
            else Ok (with_files fs w, mkCatEditor e (running c))
        | Raise x => Raise x
        end
      else if bool_decide (ch = Py.ord "n" \/ ch = Py.ord "N") then
        Ok (w, mkCatEditor e false)
      else Ok (w, mkCatEditor e (running c))
    else Ok (w, mkCatEditor e false)
  else
    match process_keypress key w e with
    | Ok (_, w, e) => Ok (w, mkCatEditor e (running c))
    | Raise x => Raise x
    end.

(** One turn of the loop of [run], entered with [running] set.  The
    countdown of the status message happens while painting and is left out
    with it. *)
Definition run_iteration (w : world) (c : CatEditor) : result (world * CatEditor) :=
  match draw_cat w (editor c) with
  | None => Ok (w, c)
  | Some _ =>
      let '(key, w) := getch w in
      handle_key key w c
  end.

(** [run], for a bounded number of turns. *)
Fixpoint run (turns : nat) (w : world) (c : CatEditor) : result (world * CatEditor) :=
  match turns with
  | O => Ok (w, c)
  | S n =>
      if running c then
        match run_iteration w c with
        | Ok (w, c) => run n w c
        | Raise x => Raise x
        end
      else Ok (w, c)
  end.

(** ** The invariants of the data model and the editing operations *)

(** The cursor as a position in the document. *)
Definition row (s : TextEditor) : nat := Z.to_nat (cursor_y s).
Definition col (s : TextEditor) : nat := Z.to_nat (cursor_x s).

(** The document always has a line. *)
Definition document_inv (s : TextEditor) : Prop := 1 <= Py.len (text s).

(** The cursor is on a line, at one of its columns or just after the last. *)
Definition cursor_inv (s : TextEditor) : Prop :=
  0 <= cursor_y s < Py.len (text s) /\
  match text s !! row s with
  | Some l => 0 <= cursor_x s <= Py.len l
  | None => False
  end.

Definition valid (s : TextEditor) : Prop := document_inv s /\ cursor_inv s.

#[global] Instance valid_dec (s : TextEditor) : Decision (valid s).
Proof.
  unfold valid, document_inv, cursor_inv.
  destruct (text s !! row s); apply _.
Defined.

Inductive op :=
  | InsertChar (ch : Z)
  | InsertNewline
  | DeleteBackward.

Definition apply_op (o : op) (s : TextEditor) : result TextEditor :=
  match o with
  | InsertChar ch => insert_char ch s
  | InsertNewline => insert_newline s
  | DeleteBackward => delete_char s
  end.

(** The character of an [InsertChar] is a code point. *)
Definition op_ok (o : op) : Prop :=
  match o with
  | InsertChar ch => 0 <= ch <= 1114111
  | _ => True
  end.

(** The states after each operation of a sequence, in order. *)
Fixpoint run_ops (ops : list op) (s : TextEditor) : result (list TextEditor) :=
  match ops with
  | [] => Ok []
  | o :: ops =>
      s' ← apply_op o s;
      tr ← run_ops ops s';
      Ok (s' :: tr)
  end.

(** What [save_file] writes for a document. *)
Definition file_of_lines (t : list line) : list Z :=
  concat (map (fun l => l ++ [Py.LF]) t).

(** A line without a line break in it. *)
Definition no_newline (l : line) : Prop := (Py.LF ∉ l) /\ (Py.CR ∉ l).

#[global] Instance no_newline_dec (l : line) : Decision (no_newline l).
Proof. unfold no_newline. apply _. Defined.

(** The answers that [run] takes for yes and for no at its prompt. *)
Definition answers_yes (ch : Z) : Prop :=
  ch = Py.ord "y" \/ ch = Py.ord "Y" \/ ch = 10.
Definition answers_no (ch : Z) : Prop :=
  ch = Py.ord "n" \/ ch = Py.ord "N".

(** ** States and worlds for the scenarios *)

(** An editor on an unnamed buffer holding [t], the cursor at column [x] of
    row [y], nothing scrolled and nothing modified. *)
Definition editing (t : list line) (x y : Z) : TextEditor :=
  mkTextEditor None t x y 0 "" 0 false.

(** A terminal of the given size over an empty file store, where every key
    read is [key]. *)
Definition terminal (h w : Z) (key : Z) : world :=
  mkWorld ∅ h w (fun _ => key) 0.

(** An editor on the file [name] holding [t]. *)
Definition named_editor (name : string) (t : list line) : TextEditor :=
  mkTextEditor (Some name) t 0 0 0 "" 0 false.

(** A store whose only file may be written but not read, and one whose only
    file may be read but not written. *)
Definition write_only_store : gmap string node :=
  {[ "notes.txt" := Regular (Py.str "x") false true ]}.
Definition read_only_store : gmap string node :=
  {[ "notes.txt" := Regular (Py.str "x") true false ]}.

(** A store with one directory. *)
Definition directory_store : gmap string node := {[ "notes" := Directory ]}.

(** ** What the screen shows *)

(** The screen row [TextEditor.draw] moves the cursor to, for an editor area
    that starts at [start_row]. *)
Definition cursor_screen_y (start_row : Z) (s : TextEditor) : Z :=
  start_row + (cursor_y s - scroll_y s).

(** The cursor row is one of the [calculate_editor_space] rows that follow
    the scroll offset. *)
Definition scroll_inv (w : world) (s : TextEditor) : Prop :=
  scroll_y s <= cursor_y s < scroll_y s + calculate_editor_space w s.

(** ** Documents the editor can hold and files it leaves *)

(** No line of the document has a line break in it. *)
Definition newline_free (s : TextEditor) : Prop := Forall no_newline (text s).

(** A text with a line feed added when its last line has none. *)
Definition terminated (u : list Z) : list Z :=
  match last u with
  | None => []
  | Some c => if bool_decide (c = Py.LF) then u else u ++ [Py.LF]
  end.

(** The keys [process_keypress] turns into an edit of an empty document:
    Enter and the printable characters. *)
Definition inserts (key : Z) : Prop := key = 10 \/ key = 13 \/ 32 <= key <= 126.

(** A store whose only file is empty. *)
Definition empty_file_store : gmap string node :=
  {[ "empty.txt" := Regular [] true true ]}.

(** A store whose only file has a line that ends in a carriage return and
    a line feed and a last line that does not end. *)
Definition dos_file_store : gmap string node :=
  {[ "dos.txt" := Regular (Py.str "ab" ++ [Py.CR; Py.LF] ++ Py.str "c") true true ]}.

(** The keys [process_keypress] has a branch for that does something: the
    six motion keys, Enter, Backspace, Ctrl+X, Ctrl+S and the printable
    characters.  The Delete key has a branch that does nothing. *)
Definition has_action (key : Z) : Prop :=
  is_motion key = true \/ key = 10 \/ key = 13 \/ key = 127 \/
  key = Key.BACKSPACE \/ key = 24 \/ key = 19 \/ 32 <= key <= 126.

(** * Properties *)

(** ** Python primitives at indices in range *)

Section primitives.
Context {A : Type}.
Implicit Types (l : list A) (i : Z).

Example getitem_counts_from_the_end :
  Py.getitem [10; 20; 30] (-1) = Ok 30 /\
  Py.getitem [10; 20; 30] (-3) = Ok 10 /\
  Py.getitem [10; 20; 30] 3 = Raise IndexError /\
  Py.getitem [10; 20; 30] (-4) = Raise IndexError /\
  Py.getitem (@nil Z) (-1) = Raise IndexError.
Proof. repeat split. Qed.

Example slices_and_insert_clip :
  Py.slice_to [10; 20; 30] 5 = [10; 20; 30] /\
  Py.slice_from [10; 20; 30] 5 = [] /\
  Py.slice_to [10; 20; 30] (-1) = [10; 20] /\
  Py.insert [10; 20; 30] 7 40 = [10; 20; 30; 40] /\
  Py.insert [10; 20; 30] (-9) 40 = [40; 10; 20; 30].
Proof. repeat split. Qed.

Example readlines_reads_every_line_end :
  readlines (Py.str "ab" ++ [Py.CR; Py.LF] ++ Py.str "c" ++ [Py.CR] ++ Py.str "d")
    = [Py.str "ab" ++ [Py.LF]; Py.str "c" ++ [Py.LF]; Py.str "d"] /\
  Py.rstrip_lf (Py.str "ab" ++ [Py.LF; Py.LF]) = Py.str "ab" /\
  readlines [] = [].
Proof. repeat split. Qed.

Lemma index_in_range (n i : Z) : 0 <= i < n -> Py.index n i = Ok (Z.to_nat i).
Proof. intros H. unfold Py.index. by rewrite bool_decide_eq_true_2. Qed.

Lemma getitem_in_range l i x :
  0 <= i -> l !! Z.to_nat i = Some x -> Py.getitem l i = Ok x.
Proof.
  intros Hi Hx. unfold Py.getitem, Py.len.
  apply lookup_lt_Some in Hx as Hlt.
  rewrite index_in_range by lia. simpl. by rewrite Hx.
Qed.

Lemma setitem_in_range l i v :
  0 <= i < Py.len l -> Py.setitem l i v = Ok (<[Z.to_nat i := v]> l).
Proof. intros H. unfold Py.setitem. by rewrite index_in_range. Qed.

Lemma pop_in_range l i :
  0 <= i < Py.len l -> Py.pop l i = Ok (delete (Z.to_nat i) l).
Proof. intros H. unfold Py.pop. by rewrite index_in_range. Qed.

Lemma bound_nonneg (n i : Z) :
  0 <= i -> 0 <= n -> Py.bound n i = Nat.min (Z.to_nat i) (Z.to_nat n).
Proof.
  intros Hi Hn. unfold Py.bound.
  rewrite bool_decide_eq_false_2 by lia. lia.
Qed.

Lemma slice_to_nonneg l i : 0 <= i -> Py.slice_to l i = take (Z.to_nat i) l.
Proof.
  intros Hi. unfold Py.slice_to, Py.len. rewrite bound_nonneg by lia.
  rewrite Nat2Z.id, <- take_take. by rewrite firstn_all.
Qed.

Lemma slice_from_nonneg l i : 0 <= i -> Py.slice_from l i = drop (Z.to_nat i) l.
Proof.
  intros Hi. unfold Py.slice_from, Py.len. rewrite bound_nonneg by lia.
  rewrite Nat2Z.id.
  destruct (decide (Z.to_nat i <= length l)%nat).
  - by rewrite Nat.min_l.
  - rewrite Nat.min_r by lia. by rewrite !drop_ge by lia.
Qed.

Lemma insert_nonneg l i v :
  0 <= i -> Py.insert l i v = take (Z.to_nat i) l ++ v :: drop (Z.to_nat i) l.
Proof.
  intros Hi. pose proof (slice_to_nonneg l i Hi) as Ht.
  pose proof (slice_from_nonneg l i Hi) as Hd.
  unfold Py.slice_to, Py.slice_from in *. unfold Py.insert. by rewrite Ht, Hd.
Qed.

Lemma take_past_middle (a b : list A) (x : A) (n : nat) :
  length a = n -> take (S n) (a ++ x :: b) = a ++ [x].
Proof.
  intros <-. rewrite cons_middle, app_assoc.
  apply take_app_length'. rewrite length_app. simpl. lia.
Qed.

Lemma drop_past_middle (a b : list A) (x : A) (n : nat) :
  length a = n -> drop (S n) (a ++ x :: b) = b.
Proof.
  intros <-. rewrite cons_middle, app_assoc.
  apply drop_app_length'. rewrite length_app. simpl. lia.
Qed.

Lemma delete_after_insert (t : list A) (n : nat) (v : A) :
  (S n < length t)%nat ->
  delete (S n) (<[n := v]> t) = take n t ++ v :: drop (S (S n)) t.
Proof.
  intros Hn. rewrite insert_take_drop by lia. rewrite delete_take_drop.
  assert (Ht : length (take n t) = n) by (rewrite length_take; lia).
  rewrite take_past_middle by done.
  rewrite (cons_middle v (take n t) (drop (S n) t)).
  rewrite (app_assoc (take n t) [v] (drop (S n) t)).
  replace (S (S n)) with (S n + 1)%nat by lia.
  rewrite drop_app_add' by (rewrite length_app; simpl; lia).
  rewrite drop_drop, <- app_assoc. done.
Qed.

End primitives.

(** ** The operations on a valid state *)

Lemma valid_line (s : TextEditor) :
  valid s ->
  exists l, text s !! row s = Some l /\
    0 <= cursor_y s < Py.len (text s) /\ 0 <= cursor_x s <= Py.len l.
Proof.
  intros [_ [Hy Hx]]. destruct (text s !! row s) as [l|] eqn:E; [|done].
  by exists l.
Qed.

Lemma ensure_line_valid (s : TextEditor) : valid s -> ensure_line s = s.
Proof.
  intros [Hd _]. unfold ensure_line, document_inv, Py.len in *.
  destruct (text s); [simpl in Hd; lia | done].
Qed.

Lemma insert_char_valid (s : TextEditor) (ch : Z) (l : line) :
  valid s -> text s !! row s = Some l -> 0 <= ch <= 1114111 ->
  insert_char ch s =
    Ok (mkTextEditor (filename s)
          (<[row s := take (col s) l ++ ch :: drop (col s) l]> (text s))
          (cursor_x s + 1) (cursor_y s) (scroll_y s)
          (status_message s) (status_timer s) true).
Proof.
  intros Hv Hl Hch. destruct (valid_line s Hv) as (l' & Hl' & Hy & Hx).
  assert (l' = l) as -> by congruence.
  unfold insert_char. rewrite (ensure_line_valid s Hv).
  rewrite (getitem_in_range (text s) (cursor_y s) l) by (done || lia). simpl.
  unfold Py.chr. rewrite bool_decide_eq_true_2 by done. simpl.
  rewrite setitem_in_range by done. simpl.
  by rewrite slice_to_nonneg, slice_from_nonneg by lia.
Qed.

Lemma insert_newline_valid (s : TextEditor) (l : line) :
  valid s -> text s !! row s = Some l ->
  insert_newline s =
    Ok (mkTextEditor (filename s)
          (take (row s) (text s)
             ++ take (col s) l :: drop (col s) l :: drop (S (row s)) (text s))
          0 (cursor_y s + 1) (scroll_y s)
          (status_message s) (status_timer s) true).
Proof.
  intros Hv Hl. destruct (valid_line s Hv) as (l' & Hl' & Hy & Hx).
  assert (l' = l) as -> by congruence.
  unfold insert_newline. rewrite (ensure_line_valid s Hv).
  rewrite (getitem_in_range (text s) (cursor_y s) l) by (done || lia). simpl.
  rewrite setitem_in_range by done. simpl.
  rewrite insert_nonneg, slice_to_nonneg, slice_from_nonneg by lia.
  unfold with_modified, with_cursor_x, with_cursor_y, with_text; simpl.
  do 2 f_equal.
  assert (Hlen : (row s < length (text s))%nat) by (unfold row, Py.len in *; lia).
  replace (Z.to_nat (cursor_y s + 1)) with (S (row s)) by (unfold row; lia).
  rewrite (insert_take_drop (text s) (row s)) by done.
  assert (Ht : length (take (row s) (text s)) = row s)
    by (rewrite length_take; lia).
  rewrite take_past_middle, drop_past_middle by done.
  by rewrite <- app_assoc.
Qed.

Lemma delete_char_in_line (s : TextEditor) (l : line) :
  valid s -> text s !! row s = Some l -> cursor_x s > 0 ->
  delete_char s =
    Ok (mkTextEditor (filename s)
          (<[row s := take (col s - 1) l ++ drop (col s) l]> (text s))
          (cursor_x s - 1) (cursor_y s) (scroll_y s)
          (status_message s) (status_timer s) true).
Proof.
  intros Hv Hl Hpos. destruct (valid_line s Hv) as (l' & Hl' & Hy & Hx).
  assert (l' = l) as -> by congruence.
  unfold delete_char. destruct (text s) as [|l0 t] eqn:Et.
  { by rewrite lookup_nil in Hl. }
  rewrite <- Et in *. clear Et l0 t.
  rewrite (getitem_in_range (text s) (cursor_y s) l) by (done || lia). simpl.
  rewrite bool_decide_eq_true_2 by done.
  rewrite setitem_in_range by done. simpl.
  rewrite slice_to_nonneg, slice_from_nonneg by lia.
  replace (Z.to_nat (cursor_x s - 1)) with (col s - 1)%nat by (unfold col; lia).
  done.
Qed.

Lemma delete_char_join (s : TextEditor) (l prev : line) :
  valid s -> text s !! row s = Some l -> cursor_x s = 0 -> cursor_y s > 0 ->
  text s !! (row s - 1)%nat = Some prev ->
  delete_char s =
    Ok (mkTextEditor (filename s)
          (take (row s - 1) (text s) ++ (prev ++ l) :: drop (S (row s)) (text s))
          (Py.len prev) (cursor_y s - 1) (scroll_y s)
          (status_message s) (status_timer s) true).
Proof.
  intros Hv Hl Hx0 Hpos Hprev. destruct (valid_line s Hv) as (l' & Hl' & Hy & Hx).
  assert (l' = l) as -> by congruence.
  unfold delete_char. destruct (text s) as [|l0 t] eqn:Et.
  { by rewrite lookup_nil in Hl. }
  rewrite <- Et in *. clear Et l0 t.
  rewrite (getitem_in_range (text s) (cursor_y s) l) by (done || lia). simpl.
  rewrite bool_decide_eq_false_2 by lia.
  rewrite bool_decide_eq_true_2 by done.
  assert (Hr : Z.to_nat (cursor_y s - 1) = (row s - 1)%nat) by (unfold row; lia).
  rewrite (getitem_in_range _ _ prev) by (lia || by rewrite Hr). simpl.
  rewrite setitem_in_range by lia. simpl. rewrite Hr.
  assert (Hlen : (row s < length (text s))%nat) by (unfold row, Py.len in *; lia).
  assert (Hrow : (0 < row s)%nat) by (unfold row; lia).
  rewrite pop_in_range by (unfold Py.len; rewrite length_insert; done). simpl.
  unfold with_modified, with_cursor_x, with_cursor_y, with_text; simpl.
  do 2 f_equal. fold (row s).
  assert (exists n, row s = S n) as [n En] by (exists (row s - 1)%nat; lia).
  rewrite En in *. replace (S n - 1)%nat with n by lia.
  apply delete_after_insert. lia.
Qed.

Lemma delete_char_at_origin (s : TextEditor) :
  valid s -> cursor_x s = 0 -> cursor_y s = 0 -> delete_char s = Ok s.
Proof.
  intros Hv Hx0 Hy0. destruct (valid_line s Hv) as (l & Hl & Hy & Hx).
  unfold delete_char. destruct (text s) as [|l0 t] eqn:Et; [done|].
  rewrite <- Et in *. clear Et l0 t.
  rewrite (getitem_in_range (text s) (cursor_y s) l) by (done || lia). simpl.
  by rewrite !bool_decide_eq_false_2 by lia.
Qed.

(** ** Each operation keeps the invariants *)

Lemma valid_intro (s : TextEditor) (l : line) :
  0 <= cursor_y s < Py.len (text s) ->
  text s !! row s = Some l ->
  0 <= cursor_x s <= Py.len l ->
  valid s.
Proof.
  intros Hy Hl Hx. split; [unfold document_inv; lia|].
  split; [done|]. by rewrite Hl.
Qed.

Lemma insert_char_keeps_valid (s : TextEditor) (ch : Z) :
  valid s -> 0 <= ch <= 1114111 ->
  exists s', insert_char ch s = Ok s' /\ valid s'.
Proof.
  intros Hv Hch. destruct (valid_line s Hv) as (l & Hl & Hy & Hx).
  eexists. split; [by apply insert_char_valid|].
  eapply valid_intro; unfold row, Py.len in *; simpl.
  - by rewrite length_insert.
  - apply list_lookup_insert_eq. lia.
  - rewrite length_app, length_take. simpl. rewrite length_drop. unfold col. lia.
Qed.

Lemma insert_newline_keeps_valid (s : TextEditor) :
  valid s -> exists s', insert_newline s = Ok s' /\ valid s'.
Proof.
  intros Hv. destruct (valid_line s Hv) as (l & Hl & Hy & Hx).
  assert (Hlen : (row s < length (text s))%nat) by (unfold row, Py.len in *; lia).
  assert (Ht : length (take (row s) (text s)) = row s)
    by (rewrite length_take; lia).
  eexists. split; [by apply insert_newline_valid|].
  eapply valid_intro; unfold row, Py.len in *; simpl.
  - rewrite length_app, Ht. simpl. rewrite length_drop. lia.
  - replace (Z.to_nat (cursor_y s + 1)) with (S (Z.to_nat (cursor_y s))) by lia.
    rewrite (cons_middle (take (col s) l)), app_assoc.
    apply list_lookup_middle. rewrite length_app, Ht. simpl. lia.
  - lia.
Qed.

Lemma delete_char_keeps_valid (s : TextEditor) :
  valid s -> exists s', delete_char s = Ok s' /\ valid s'.
Proof.
  intros Hv. destruct (valid_line s Hv) as (l & Hl & Hy & Hx).
  assert (Hlen : (row s < length (text s))%nat) by (unfold row, Py.len in *; lia).
  destruct (decide (cursor_x s > 0)) as [Hpos|Hzero].
  { eexists. split; [by apply delete_char_in_line|].
    eapply valid_intro; unfold row, Py.len in *; simpl.
    - by rewrite length_insert.
    - apply list_lookup_insert_eq. lia.
    - rewrite length_app, length_take, length_drop. unfold col. lia. }
  destruct (decide (cursor_y s > 0)) as [Hrow|Htop].
  { destruct (lookup_lt_is_Some_2 (text s) (row s - 1)) as [prev Hprev]; [lia|].
    assert (Ht : length (take (row s - 1) (text s)) = (row s - 1)%nat)
      by (rewrite length_take; lia).
    eexists. split; [apply (delete_char_join s l prev); (done || lia)|].
    eapply valid_intro; unfold row, Py.len in *; simpl.
    - rewrite length_app, Ht. simpl. rewrite length_drop. lia.
    - replace (Z.to_nat (cursor_y s - 1)) with (Z.to_nat (cursor_y s) - 1)%nat by lia.
      by apply list_lookup_middle.
    - rewrite length_app. lia. }
  exists s. split; [apply delete_char_at_origin; (done || lia)|done].
Qed.

Lemma apply_op_keeps_valid (o : op) (s : TextEditor) :
  valid s -> op_ok o -> exists s', apply_op o s = Ok s' /\ valid s'.
Proof.
  intros Hv Ho. destruct o; simpl in *.
  - by apply insert_char_keeps_valid.
  - by apply insert_newline_keeps_valid.
  - by apply delete_char_keeps_valid.
Qed.

(** C1: from a state that satisfies the Document invariant (at least one
    line) and the Cursor invariant (the row is a line of the document, the
    column is between 0 and the length of that line), every finite sequence
    of insertChar, insertNewline and deleteBackward runs without an
    exception, and both invariants hold in the state after each single
    operation of the sequence. *)
Theorem edits_keep_invariants (s : TextEditor) (ops : list op) :
  valid s -> Forall op_ok ops ->
  exists tr, run_ops ops s = Ok tr /\
    length tr = length ops /\
    Forall (fun s' => document_inv s' /\ cursor_inv s') tr.
Proof.
  intros Hv Hops. revert s Hv.
  induction Hops as [|o ops Ho _ IH]; intros s Hv.
  - by exists [].
  - destruct (apply_op_keeps_valid o s Hv Ho) as (s' & Hs' & Hv').
    destruct (IH s' Hv') as (tr & Htr & Hlen & Hall).
    exists (s' :: tr). simpl. rewrite Hs'. simpl. rewrite Htr. simpl.
    split; [done|]. split; [by rewrite Hlen|]. by constructor.
Qed.

Lemma edits_keep_invariants_witness :
  valid (editing [Py.str "ab"] 2 0) /\
  Forall op_ok [DeleteBackward; InsertNewline; InsertChar 120; DeleteBackward] /\
  exists tr,
    run_ops [DeleteBackward; InsertNewline; InsertChar 120; DeleteBackward]
      (editing [Py.str "ab"] 2 0) = Ok tr /\
    length tr = 4%nat /\
    Forall (fun s' => document_inv s' /\ cursor_inv s') tr.
Proof.
  assert (Hv : valid (editing [Py.str "ab"] 2 0)).
  { unfold valid, document_inv, cursor_inv; simpl. unfold Py.len; simpl. lia. }
  assert (Hops : Forall op_ok
            [DeleteBackward; InsertNewline; InsertChar 120; DeleteBackward]).
  { repeat constructor; simpl; lia. }
  split; [exact Hv|]. split; [exact Hops|].
  exact (edits_keep_invariants _ _ Hv Hops).
Defined.

(** ** deleteBackward and insertNewline, in the words of the specification *)

(** C7: on every valid state, with [l] the current line, deleteBackward
    - at a column > 0 removes the character before the column and
      decrements the column;
    - at column 0 of a row > 0 appends the current line to the previous
      line [prev], removes the current line and moves the cursor to
      (row - 1, length of [prev] before the append);
    - at (0, 0) changes nothing;
    and the ModifiedFlag becomes true in the first two cases and is left as
    it was in the third.  From ["ab"] with the cursor at (0, 2) two calls
    give [""] with the cursor at (0, 0), and a third call changes nothing. *)
Theorem delete_char_behaviour (s : TextEditor) :
  valid s ->
  (exists l, text s !! row s = Some l /\
     (cursor_x s > 0 ->
        delete_char s =
          Ok (mkTextEditor (filename s)
                (<[row s := take (col s - 1) l ++ drop (col s) l]> (text s))
                (cursor_x s - 1) (cursor_y s) (scroll_y s)
                (status_message s) (status_timer s) true)) /\
     (cursor_x s = 0 -> cursor_y s > 0 ->
        exists prev, text s !! (row s - 1)%nat = Some prev /\
          delete_char s =
            Ok (mkTextEditor (filename s)
                  (take (row s - 1) (text s)
                     ++ (prev ++ l) :: drop (S (row s)) (text s))
                  (Py.len prev) (cursor_y s - 1) (scroll_y s)
                  (status_message s) (status_timer s) true)) /\
     (cursor_x s = 0 -> cursor_y s = 0 -> delete_char s = Ok s)) /\
  (forall m,
     let s0 := with_modified m (editing [Py.str "ab"] 2 0) in
     let s2 := with_modified true (editing [Py.str ""] 0 0) in
     (s1 ← delete_char s0; delete_char s1) = Ok s2 /\
     delete_char s2 = Ok s2).
Proof.
  intros Hv. split; [|by intros m].
  destruct (valid_line s Hv) as (l & Hl & Hy & Hx).
  exists l. split; [done|]. split; [|split].
  - intros Hpos. by apply delete_char_in_line.
  - intros Hx0 Hpos.
    destruct (lookup_lt_is_Some_2 (text s) (row s - 1)) as [prev Hprev].
    { unfold row, Py.len in *. lia. }
    exists prev. split; [done|]. by apply delete_char_join.
  - intros Hx0 Hy0. by apply delete_char_at_origin.
Qed.

Lemma delete_char_behaviour_witness :
  valid (editing [Py.str "abc"; Py.str "de"] 0 1) /\
  delete_char (editing [Py.str "abc"; Py.str "de"] 0 1)
    = Ok (mkTextEditor None [Py.str "abcde"] 3 0 0 "" 0 true).
Proof.
  assert (Hv : valid (editing [Py.str "abc"; Py.str "de"] 0 1)).
  { unfold valid, document_inv, cursor_inv; simpl. unfold Py.len; simpl. lia. }
  split; [exact Hv|].
  destruct (delete_char_behaviour _ Hv) as [(l & Hl & _ & Hjoin & _) _].
  destruct Hjoin as (prev & Hprev & ->); [reflexivity|reflexivity|].
  simpl in Hl, Hprev. injection Hl as <-. injection Hprev as <-.
  reflexivity.
Defined.

(** C8: on every valid state, with [l] the current line, insertNewline cuts
    the current line at the column, puts the remainder in a new line right
    after it, leaves the other lines in order, moves the cursor to
    (row + 1, 0) and sets the ModifiedFlag.  From ["abc"; "de"; "f"] with
    the cursor at (1, 2) it gives ["abc"; "de"; ""; "f"] with the cursor at
    (2, 0). *)
Theorem insert_newline_behaviour (s : TextEditor) :
  valid s ->
  (exists l, text s !! row s = Some l /\
     insert_newline s =
       Ok (mkTextEditor (filename s)
             (take (row s) (text s)
                ++ take (col s) l :: drop (col s) l :: drop (S (row s)) (text s))
             0 (cursor_y s + 1) (scroll_y s)
             (status_message s) (status_timer s) true)) /\
  (forall m,
     insert_newline
       (with_modified m (editing [Py.str "abc"; Py.str "de"; Py.str "f"] 2 1))
     = Ok (with_modified true
             (editing [Py.str "abc"; Py.str "de"; Py.str ""; Py.str "f"] 0 2))).
Proof.
  intros Hv. split; [|by intros m].
  destruct (valid_line s Hv) as (l & Hl & _).
  exists l. split; [done|]. by apply insert_newline_valid.
Qed.

Lemma insert_newline_behaviour_witness :
  valid (editing [Py.str "abc"; Py.str "de"] 1 0) /\
  insert_newline (editing [Py.str "abc"; Py.str "de"] 1 0)
    = Ok (mkTextEditor None [Py.str "a"; Py.str "bc"; Py.str "de"] 0 1 0 "" 0 true).
Proof.
  assert (Hv : valid (editing [Py.str "abc"; Py.str "de"] 1 0)).
  { unfold valid, document_inv, cursor_inv; simpl. unfold Py.len; simpl. lia. }
  split; [exact Hv|].
  destruct (insert_newline_behaviour _ Hv) as [(l & Hl & ->) _].
  simpl in Hl. injection Hl as <-. reflexivity.
Defined.

(** ** Cursor motion *)

Lemma move_cursor_on_valid (key : Z) (s : TextEditor) :
  valid s ->
  exists s', move_cursor key s = Ok s' /\
    text s' = text s /\ modified s' = modified s /\ valid s'.
Proof.
  intros Hv. destruct (valid_line s Hv) as (l & Hl & Hy & Hx).
  assert (Hlen : (row s < length (text s))%nat) by (unfold row, Py.len in *; lia).
  unfold move_cursor.
  repeat case_bool_decide; subst;
    rewrite ?(getitem_in_range (text s) (cursor_y s) l) by (done || lia);
    simpl; repeat case_bool_decide.
  all: try (eexists; split; [reflexivity|]; split; [done|]; split; [done|];
            first [ exact Hv
                  | apply (valid_intro _ l); simpl; (done || lia) ]).
  - (* Right, to the start of the next line *)
    destruct (lookup_lt_is_Some_2 (text s) (S (row s))) as [l' Hl'].
    { unfold row, Py.len in *. lia. }
    assert (Hr : Z.to_nat (cursor_y s + 1) = S (row s)) by (unfold row; lia).
    eexists; split; [reflexivity|]; split; [done|]; split; [done|].
    apply (valid_intro _ l'); simpl;
      [lia | unfold row; simpl; by rewrite Hr | unfold Py.len; lia].
  - (* Left, to the end of the previous line *)
    destruct (lookup_lt_is_Some_2 (text s) (row s - 1)) as [l' Hl'].
    { unfold row, Py.len in *. lia. }
    assert (Hr : Z.to_nat (cursor_y s - 1) = (row s - 1)%nat) by (unfold row; lia).
    rewrite (getitem_in_range (text s) (cursor_y s - 1) l') by (lia || by rewrite Hr).
    eexists; split; [reflexivity|]; split; [done|]; split; [done|].
    apply (valid_intro _ l'); simpl;
      [lia | unfold row; simpl; by rewrite Hr | unfold Py.len; lia].
  - (* Up *)
    destruct (lookup_lt_is_Some_2 (text s) (row s - 1)) as [l' Hl'].
    { unfold row, Py.len in *. lia. }
    assert (Hr : Z.to_nat (cursor_y s - 1) = (row s - 1)%nat) by (unfold row; lia).
    rewrite (getitem_in_range (text s) (cursor_y s - 1) l') by (lia || by rewrite Hr).
    eexists; split; [reflexivity|]; split; [done|]; split; [done|].
    apply (valid_intro _ l'); simpl;
      [lia | unfold row; simpl; by rewrite Hr | unfold Py.len; lia].
  - (* Down *)
    destruct (lookup_lt_is_Some_2 (text s) (S (row s))) as [l' Hl'].
    { unfold row, Py.len in *. lia. }
    assert (Hr : Z.to_nat (cursor_y s + 1) = S (row s)) by (unfold row; lia).
    rewrite (getitem_in_range (text s) (cursor_y s + 1) l') by (lia || by rewrite Hr).
    eexists; split; [reflexivity|]; split; [done|]; split; [done|].
    apply (valid_intro _ l'); simpl;
      [lia | unfold row; simpl; by rewrite Hr | unfold Py.len; lia].
Qed.

Lemma move_cursor_keeps_text (key : Z) (s s' : TextEditor) :
  move_cursor key s = Ok s' -> text s' = text s /\ modified s' = modified s.
Proof.
  unfold move_cursor.
  repeat case_bool_decide;
    repeat match goal with
           | |- context [Py.getitem ?t ?i] => destruct (Py.getitem t i); simpl
           end;
    repeat case_bool_decide; intros [= <-]; done.
Qed.

(** C10: whatever the key, a call of moveCursor that returns leaves the
    lines of the Document and the ModifiedFlag as they were, and on a valid
    state it does return, with no exception.  At a buffer edge nothing at
    all changes: Left at (0, 0), Right at the end of the last line, and
    likewise Up on the first row and Down on the last. *)
Theorem move_cursor_frame (key : Z) (s : TextEditor) :
  (forall s', move_cursor key s = Ok s' ->
     text s' = text s /\ modified s' = modified s) /\
  (valid s -> exists s', move_cursor key s = Ok s' /\ valid s') /\
  (cursor_y s = 0 -> cursor_x s = 0 -> move_cursor Key.LEFT s = Ok s) /\
  (forall l, cursor_y s = Py.len (text s) - 1 ->
     text s !! row s = Some l -> cursor_x s = Py.len l ->
     move_cursor Key.RIGHT s = Ok s) /\
  (cursor_y s = 0 -> move_cursor Key.UP s = Ok s) /\
  (cursor_y s = Py.len (text s) - 1 -> move_cursor Key.DOWN s = Ok s).
Proof.
  split; [|split; [|split; [|split; [|split]]]].
  - intros s'. apply move_cursor_keeps_text.
  - intros Hv.
    destruct (move_cursor_on_valid key s Hv) as (s' & Hs' & _ & _ & Hv').
    by exists s'.
  - intros Hy0 Hx0. unfold move_cursor. simpl.
    by rewrite !bool_decide_eq_false_2 by lia.
  - intros l Hlast Hl Hend. unfold move_cursor. simpl.
    apply lookup_lt_Some in Hl as Hlt.
    assert (0 <= cursor_y s) by (unfold Py.len in Hlast; lia).
    rewrite (getitem_in_range (text s) (cursor_y s) l) by done. simpl.
    by rewrite !bool_decide_eq_false_2 by lia.
  - intros Hy0. unfold move_cursor. simpl.
    by rewrite bool_decide_eq_false_2 by lia.
  - intros Hlast. unfold move_cursor. simpl.
    by rewrite bool_decide_eq_false_2 by lia.
Qed.

Lemma move_cursor_frame_witness :
  valid (editing [Py.str "ab"; Py.str "c"] 1 1) /\
  move_cursor Key.RIGHT (editing [Py.str "ab"; Py.str "c"] 1 1)
    = Ok (editing [Py.str "ab"; Py.str "c"] 1 1) /\
  exists s', move_cursor Key.UP (editing [Py.str "ab"; Py.str "c"] 1 1) = Ok s' /\
    valid s' /\ text s' = [Py.str "ab"; Py.str "c"].
Proof.
  assert (Hv : valid (editing [Py.str "ab"; Py.str "c"] 1 1)).
  { unfold valid, document_inv, cursor_inv; simpl. unfold Py.len; simpl. lia. }
  split; [exact Hv|].
  destruct (move_cursor_frame Key.RIGHT (editing [Py.str "ab"; Py.str "c"] 1 1))
    as (_ & _ & _ & Hright & _).
  split; [apply (Hright (Py.str "c")); reflexivity|].
  destruct (move_cursor_frame Key.UP (editing [Py.str "ab"; Py.str "c"] 1 1))
    as (Hframe & Hret & _).
  destruct (Hret Hv) as (s' & Hs' & Hv').
  exists s'. split; [exact Hs'|]. split; [exact Hv'|].
  exact (proj1 (Hframe s' Hs')).
Defined.

(** ** Scrolling and layout *)

(** C2: for every viewport height > 0, after the scroll adjustment the
    scroll offset is at most the cursor row and the cursor row is below
    scroll + viewportHeight; the cursor does not move.  [scroll_if_needed]
    itself, whose viewport height is the editor space of the layout (at
    least 5), always ends so.  With viewportHeight 10, the cursor on row 25
    and scroll 0 the scroll becomes 16, also through [scroll_if_needed] on
    a terminal of height 18 with 26 lines. *)
Theorem scroll_keeps_cursor_visible (viewport : Z) (s : TextEditor) :
  viewport > 0 ->
  (let s' := scroll_to_cursor viewport s in
   cursor_y s' = cursor_y s /\
   scroll_y s' <= cursor_y s' /\ cursor_y s' < scroll_y s' + viewport) /\
  (forall w,
     let s' := scroll_if_needed w s in
     scroll_y s' <= cursor_y s' /\
     cursor_y s' < scroll_y s' + calculate_editor_space w s) /\
  (cursor_y s = 25 -> scroll_y s = 0 ->
     scroll_y (scroll_to_cursor 10 s) = 16 /\
     forall w, height w = 18 -> Py.len (text s) = 26 ->
       calculate_editor_space w s = 10 /\
       scroll_y (scroll_if_needed w s) = 16).
Proof.
  assert (Hgen : forall v, v > 0 ->
            let s' := scroll_to_cursor v s in
            cursor_y s' = cursor_y s /\
            scroll_y s' <= cursor_y s' /\ cursor_y s' < scroll_y s' + v).
  { intros v Hv. unfold scroll_to_cursor.
    repeat case_bool_decide; simpl in *; lia. }
  intros Hpos. split; [by apply Hgen|]. split.
  - intros w. unfold scroll_if_needed.
    destruct (Hgen (calculate_editor_space w s)) as (_ & H1 & H2); [|done].
    unfold calculate_editor_space, min_editor_lines. lia.
  - intros Hy Hs.
    assert (H16 : scroll_y (scroll_to_cursor 10 s) = 16).
    { unfold scroll_to_cursor. repeat case_bool_decide; simpl in *; lia. }
    split; [done|]. intros w Hh Hlen.
    assert (Hsp : calculate_editor_space w s = 10).
    { unfold calculate_editor_space, min_editor_lines, cat_head_height,
        cat_bottom_height. lia. }
    split; [done|]. unfold scroll_if_needed. by rewrite Hsp.
Qed.

Lemma scroll_keeps_cursor_visible_witness :
  10 > 0 /\
  scroll_to_cursor 10 (with_cursor_y 25 (editing (replicate 26 []) 0 0))
    = with_scroll_y 16 (with_cursor_y 25 (editing (replicate 26 []) 0 0)) /\
  scroll_y (scroll_if_needed (terminal 18 80 0)
              (with_cursor_y 25 (editing (replicate 26 []) 0 0))) = 16.
Proof.
  assert (Hpos : 10 > 0) by lia.
  split; [exact Hpos|]. split; [reflexivity|].
  destruct (scroll_keeps_cursor_visible 10
              (with_cursor_y 25 (editing (replicate 26 []) 0 0)) Hpos)
    as (_ & _ & Hsc).
  destruct Hsc as [_ Hw]; [reflexivity|reflexivity|].
  destruct (Hw (terminal 18 80 0)) as [_ H16]; [reflexivity|reflexivity|].
  exact H16.
Defined.

(** C3: for every terminal height and every Document length the layout
    gives editorHeight = max(min(len(Document) + 5, terminalHeight - 3 - 4
    - 1), 5); with terminalHeight 20 and a Document of 2 lines that is 7. *)
Theorem calculate_editor_space_formula (w : world) (s : TextEditor) :
  calculate_editor_space w s
    = Z.max (Z.min (Py.len (text s) + 5) (height w - 3 - 4 - 1)) 5 /\
  (forall fs wd keys n name l1 l2 x y sc msg ttl m,
     calculate_editor_space (mkWorld fs 20 wd keys n)
       (mkTextEditor name [l1; l2] x y sc msg ttl m) = 7).
Proof. split; [reflexivity|]. intros. reflexivity. Qed.

(** On a terminal of 10 rows and 50 columns, which passes the guard of
    [draw_cat], the editor is drawn on rows 3 to 6: three rows, where the
    layout computes an editor height of five. *)
Lemma draw_cat_rows_differ_from_editor_height :
  height (terminal 10 50 0) >= 10 /\ width (terminal 10 50 0) >= 50 /\
  draw_cat (terminal 10 50 0) (editing [[]] 0 0) = Some (3, 6) /\
  calculate_editor_space (terminal 10 50 0) (editing [[]] 0 0) = 5 /\
  6 - 3 <> calculate_editor_space (terminal 10 50 0) (editing [[]] 0 0).
Proof. repeat split; (reflexivity || discriminate). Qed.

(** C4, amended: on every terminal that passes the too-small guard (height
    >= 10 and width >= 50) [draw_cat] draws the editor from row 3 to a row
    editorEndRow <= terminalHeight - bottomChromeHeight.  From a height of
    12 on, editorEndRow - editorStartRow is the editorHeight of the layout;
    at heights 10 and 11 the clamp cuts the region to terminalHeight - 7
    rows, fewer than editorHeight. *)
Theorem draw_cat_rows (w : world) (s : TextEditor) :
  height w >= 10 -> width w >= 50 ->
  exists editor_end_row,
    draw_cat w s = Some (cat_head_height, editor_end_row) /\
    editor_end_row <= height w - cat_bottom_height /\
    (height w >= 12 ->
       editor_end_row - cat_head_height = calculate_editor_space w s) /\
    (height w < 12 ->
       editor_end_row - cat_head_height = height w - 7 /\
       editor_end_row - cat_head_height < calculate_editor_space w s).
Proof.
  intros Hh Hw. unfold draw_cat.
  rewrite bool_decide_eq_false_2 by lia.
  eexists. split; [reflexivity|].
  unfold calculate_editor_space, min_editor_lines, cat_head_height,
    cat_bottom_height, Py.len.
  case_bool_decide; lia.
Qed.

Lemma draw_cat_rows_witness :
  height (terminal 24 80 0) >= 10 /\ width (terminal 24 80 0) >= 50 /\
  exists editor_end_row,
    draw_cat (terminal 24 80 0) (editing [[]; []] 0 0)
      = Some (cat_head_height, editor_end_row) /\
    editor_end_row <= 20 /\
    editor_end_row - cat_head_height
      = calculate_editor_space (terminal 24 80 0) (editing [[]; []] 0 0).
Proof.
  assert (Hh : height (terminal 24 80 0) >= 10) by (simpl; lia).
  assert (Hw : width (terminal 24 80 0) >= 50) by (simpl; lia).
  split; [exact Hh|]. split; [exact Hw|].
  destruct (draw_cat_rows (terminal 24 80 0) (editing [[]; []] 0 0) Hh Hw)
    as (e & Hd & Hle & Hbig & _).
  exists e. split; [exact Hd|]. split; [exact Hle|].
  apply Hbig. simpl. lia.
Defined.

(** ** Saving never raises *)

Lemma save_file_returns (fs : gmap string node) (s : TextEditor) :
  exists saved fs' s', save_file fs s = Ok (saved, fs', s').
Proof.
  unfold save_file. destruct (named (filename s)) as [path|]; [|by eauto].
  destruct (save_body fs path (text s)); by eauto.
Qed.

(** ** Leaving the editor with unsaved changes *)

(** C5: Ctrl+X read by [run] while the buffer is modified reads one more
    key, the answer.  The loop stops ([running] becomes false) exactly when
    the answer is yes and the save that is made first succeeds, or the
    answer is no, in which case nothing is written.  Any other answer
    leaves [running] set, the store and the buffer untouched.  [q] and
    Ctrl+Q on a modified buffer never stop the loop.  The same holds for
    the Ctrl+X branch of [process_keypress], whose result [false] means
    exit. *)
Theorem exit_needs_an_answer (w : world) (c : CatEditor) :
  modified (editor c) = true -> running c = true ->
  let ch := input w (consumed w) in
  let e := set_status_message "Save modified buffer? (Y/n)" 5 (editor c) in
  let p := set_status_message "Save modified buffer? (y/n)" 100 (editor c) in
  (exists w' c', handle_key 24 w c = Ok (w', c') /\
     (running c' = false <->
        (answers_yes ch /\
           exists fs' e', save_file (files w) e = Ok (true, fs', e')) \/
        answers_no ch) /\
     (answers_yes ch ->
        save_file (files w) e = Ok (negb (running c'), files w', editor c')) /\
     (answers_no ch -> files w' = files w /\ editor c' = e) /\
     (~ answers_yes ch -> ~ answers_no ch ->
        running c' = true /\ files w' = files w /\ editor c' = e)) /\
  (forall key, key = Py.ord "q" \/ key = 17 ->
     exists c', handle_key key w c = Ok (w, c') /\ running c' = true /\
       text (editor c') = text (editor c) /\ modified (editor c') = true) /\
  (exists leave w' s', process_keypress 24 w (editor c) = Ok (leave, w', s') /\
     (leave = false <->
        ((ch = Py.ord "y" \/ ch = Py.ord "Y") /\
           exists fs' s'', save_file (files w) p = Ok (true, fs', s'')) \/
        answers_no ch) /\
     (~ (ch = Py.ord "y" \/ ch = Py.ord "Y") -> ~ answers_no ch ->
        files w' = files w /\ text s' = text (editor c) /\ modified s' = true)).
Proof.
  intros Hmod Hrun ch e p. unfold answers_yes, answers_no.
  change (Py.ord "y") with 121. change (Py.ord "Y") with 89.
  change (Py.ord "n") with 110. change (Py.ord "N") with 78.
  change (Py.ord "q") with 113.
  split; [|split].
  - unfold handle_key. change (Py.ord "q") with 113.
    rewrite bool_decide_eq_false_2 by lia.
    rewrite bool_decide_eq_true_2 by done. rewrite Hmod.
    change (Py.ord "y") with 121. change (Py.ord "Y") with 89.
    change (Py.ord "n") with 110. change (Py.ord "N") with 78.
    unfold getch. fold ch. fold e.
    set (w1 := mkWorld (files w) (height w) (width w) (input w) (S (consumed w))).
    change (files w1) with (files w).
    case_bool_decide as Hyes.
    + destruct (save_file_returns (files w) e) as (saved & fs' & e' & Hs).
      rewrite Hs. destruct saved; do 2 eexists; (split; [reflexivity|]); simpl.
      * split; [split; [eauto|done]|]. split; [done|]. split; [lia|]. tauto.
      * rewrite Hrun. split; [split; [done|]|].
        { intros [[_ (? & ? & ?)]|?]; [congruence|lia]. }
        split; [done|]. split; [lia|]. tauto.
    + case_bool_decide as Hno; do 2 eexists; (split; [reflexivity|]); simpl.
      * split; [split; [eauto|done]|]. split; [tauto|]. split; [done|]. tauto.
      * rewrite Hrun. split; [split; [done|]|].
        { intros [[? _]|?]; tauto. }
        split; [tauto|]. split; [tauto|]. done.
  - intros key Hkey. unfold handle_key. change (Py.ord "q") with 113.
    rewrite bool_decide_eq_true_2 by done. rewrite Hmod.
    eexists. split; [reflexivity|]. simpl. done.
  - unfold process_keypress.
    change (is_motion 24) with false. cbv iota.
    rewrite !(bool_decide_eq_false_2 (24 = _ \/ 24 = _)) by (unfold Key.BACKSPACE; lia).
    rewrite (bool_decide_eq_false_2 (24 = Key.DC)) by (unfold Key.DC; lia).
    rewrite bool_decide_eq_true_2 by done. rewrite Hmod.
    change (Py.ord "y") with 121. change (Py.ord "Y") with 89.
    change (Py.ord "n") with 110. change (Py.ord "N") with 78.
    unfold getch. fold ch. fold p.
    set (w1 := mkWorld (files w) (height w) (width w) (input w) (S (consumed w))).
    change (files w1) with (files w).
    case_bool_decide as Hyes.
    + destruct (save_file_returns (files w) p) as (saved & fs' & s' & Hs).
      rewrite Hs. destruct saved; do 3 eexists; (split; [reflexivity|]); simpl.
      * split; [split; [eauto|done]|]. tauto.
      * split; [split; [done|]|tauto].
        intros [[_ (? & ? & ?)]|?]; [congruence|lia].
    + case_bool_decide as Hno; do 3 eexists; (split; [reflexivity|]); simpl.
      * split; [split; [done|]|done]. intros [[? _]|?]; tauto.
      * split; [split; [|done]|tauto]. intros _. right. tauto.
Qed.

Lemma exit_needs_an_answer_witness :
  modified (editor (mkCatEditor (with_modified true (editing [[]] 0 0)) true)) = true /\
  exists w' c',
    handle_key 24 (terminal 24 80 (Py.ord "x"))
      (mkCatEditor (with_modified true (editing [[]] 0 0)) true) = Ok (w', c') /\
    running c' = true /\ files w' = ∅.
Proof.
  split; [reflexivity|].
  destruct (exit_needs_an_answer (terminal 24 80 (Py.ord "x"))
              (mkCatEditor (with_modified true (editing [[]] 0 0)) true)
              eq_refl eq_refl)
    as [(w' & c' & Hk & _ & _ & _ & Hother) _].
  exists w', c'. split; [exact Hk|].
  destruct Hother as (Hr & Hf & _).
  - unfold answers_yes. simpl. vm_compute. intros [H|[H|H]]; discriminate H.
  - unfold answers_no. simpl. vm_compute. intros [H|H]; discriminate H.
  - split; [exact Hr|exact Hf].
Defined.

(** ** What is written and what is read back *)

Lemma file_of_lines_cons (l : line) (t : list line) :
  file_of_lines (l :: t) = l ++ Py.LF :: file_of_lines t.
Proof. unfold file_of_lines. simpl. by rewrite <- app_assoc. Qed.

Lemma write_lines_lookup (path : string) (t : list line) :
  forall (fs : gmap string node) c r w,
    fs !! path = Some (Regular c r w) ->
    foldl (fun fs l => write path fs (l ++ [Py.LF])) fs t !! path
      = Some (Regular (c ++ file_of_lines t) r w).
Proof.
  induction t as [|l t IH]; intros fs c r w Hfs; simpl.
  - by rewrite app_nil_r.
  - rewrite (IH _ (c ++ l ++ [Py.LF]) r w).
    + rewrite file_of_lines_cons. do 2 f_equal.
      by rewrite <- !app_assoc.
    + unfold write. rewrite Hfs. apply lookup_insert_eq.
Qed.

Lemma save_body_content (fs fs' : gmap string node) (path : string) (t : list line) :
  save_body fs path t = Ok fs' ->
  exists r w, fs' !! path = Some (Regular (file_of_lines t) r w) /\
    match fs !! path with
    | Some (Regular _ r0 _) => r = r0
    | _ => r = true
    end.
Proof.
  unfold save_body, open_write.
  destruct (fs !! path) as [[c r w|]|] eqn:E; simpl; [|done|].
  - destruct w; simpl; [|done]. intros [= <-].
    exists r, true. split; [|done].
    by rewrite (write_lines_lookup path t _ [] r true) by apply lookup_insert_eq.
  - intros [= <-]. exists true, true. split; [|done].
    by rewrite (write_lines_lookup path t _ [] true true) by apply lookup_insert_eq.
Qed.

Lemma universal_newlines_line (l rest : list Z) :
  Py.CR ∉ l ->
  universal_newlines (l ++ Py.LF :: rest) = l ++ Py.LF :: universal_newlines rest.
Proof.
  induction l as [|c l IH]; intros Hcr; simpl.
  - done.
  - apply not_elem_of_cons in Hcr as [Hc Hl].
    rewrite bool_decide_eq_false_2 by done. by rewrite IH.
Qed.

Lemma split_keepends_line (l rest : list Z) :
  Py.LF ∉ l ->
  split_keepends (l ++ Py.LF :: rest) = (l ++ [Py.LF]) :: split_keepends rest.
Proof.
  induction l as [|c l IH]; intros Hlf; simpl.
  - done.
  - apply not_elem_of_cons in Hlf as [Hc Hl].
    rewrite bool_decide_eq_false_2 by done. by rewrite IH.
Qed.

Lemma rstrip_lf_line (l : list Z) : Py.LF ∉ l -> Py.rstrip_lf (l ++ [Py.LF]) = l.
Proof.
  induction l as [|c l IH]; intros Hlf; simpl.
  - done.
  - apply not_elem_of_cons in Hlf as [Hc Hl]. rewrite IH by done.
    destruct l; [|done]. by rewrite bool_decide_eq_false_2.
Qed.

Lemma readlines_file_of_lines (t : list line) :
  Forall no_newline t ->
  map Py.rstrip_lf (readlines (file_of_lines t)) = t.
Proof.
  unfold readlines. induction 1 as [|l t [Hlf Hcr] _ IH]; [done|].
  rewrite file_of_lines_cons, universal_newlines_line by done.
  rewrite split_keepends_line by done. simpl.
  by rewrite rstrip_lf_line, IH.
Qed.

(** ** Persistence *)

(** C6: the claim asks that every failure to load other than a missing file
    end in a status message and not in an exception.  [load_file] handles
    [FileNotFoundError] alone: on a file that exists and may not be read,
    and on a directory, the error of [open] leaves [load_file] and
    [TextEditor.__init__] as an exception, and no message is set. *)
Theorem load_file_raises_other_errors :
  open_read write_only_store "notes.txt" = Raise (PermissionError "notes.txt") /\
  load_file write_only_store (named_editor "notes.txt" [])
    = Raise (PermissionError "notes.txt") /\
  TextEditor_init write_only_store (Some "notes.txt")
    = Raise (PermissionError "notes.txt") /\
  TextEditor_init directory_store (Some "notes")
    = Raise (IsADirectoryError "notes").
Proof. repeat split; vm_compute; reflexivity. Qed.

(** The rest of the persistence contract holds.  [load_file] on a path that
    does not exist gives a fresh document of one empty line and the message
    "New file: ..."; any other failure to open the file for reading is
    raised to the caller.  [save_file] never raises: a failure to write
    gives the answer false, the message "Error saving: ..." and leaves the
    store, the document and the ModifiedFlag as they were.  [save_file]
    with no file name writes nothing and answers false. *)
Theorem persistence_failures (fs : gmap string node) (s : TextEditor) :
  (forall path, named (filename s) = Some path -> fs !! path = None ->
     load_file fs s
       = Ok (set_status_message ("New file: " +:+ path) 5 (with_text [[]] s))) /\
  (forall path e, named (filename s) = Some path ->
     open_read fs path = Raise e -> (forall q, e <> FileNotFoundError q) ->
     load_file fs s = Raise e) /\
  (exists saved fs' s', save_file fs s = Ok (saved, fs', s') /\
     (saved = false ->
        fs' = fs /\ text s' = text s /\ modified s' = modified s)) /\
  (forall path e, named (filename s) = Some path ->
     save_body fs path (text s) = Raise e ->
     save_file fs s
       = Ok (false, fs, set_status_message ("Error saving: " +:+ exn_str e) 5 s)) /\
  (named (filename s) = None -> save_file fs s = Ok (false, fs, s)).
Proof.
  split; [|split; [|split; [|split]]].
  - intros path Hn Hfs. unfold load_file, open_read. by rewrite Hn, Hfs.
  - intros path e Hn He Hnot. unfold load_file. rewrite Hn, He.
    destruct e; try done. by destruct (Hnot path0).
  - unfold save_file. destruct (named (filename s)) as [path|].
    + destruct (save_body fs path (text s)); do 3 eexists;
        (split; [reflexivity|]); done.
    + do 3 eexists. split; [reflexivity|]. done.
  - intros path e Hn He. unfold save_file. by rewrite Hn, He.
  - intros Hn. unfold save_file. by rewrite Hn.
Qed.

Lemma persistence_failures_witness :
  save_file read_only_store (named_editor "notes.txt" [Py.str "y"])
    = Ok (false, read_only_store,
          set_status_message
            "Error saving: [Errno 13] Permission denied: 'notes.txt'" 5
            (named_editor "notes.txt" [Py.str "y"])).
Proof.
  destruct (persistence_failures read_only_store
              (named_editor "notes.txt" [Py.str "y"]))
    as (_ & _ & _ & Hfail & _).
  apply (Hfail "notes.txt" (PermissionError "notes.txt")).
  - reflexivity.
  - vm_compute. reflexivity.
Defined.

(** A line with a carriage return in it and no line feed is written as it
    is and comes back as two lines. *)
Lemma carriage_return_splits_on_reload :
  let s := named_editor "notes.txt" [Py.str "a" ++ [Py.CR] ++ Py.str "b"] in
  Forall (fun l => Py.LF ∉ l) (text s) /\
  exists fs' s',
    save_file ∅ s = Ok (true, fs', s') /\
    fs' !! "notes.txt"
      = Some (Regular (Py.str "a" ++ [Py.CR] ++ Py.str "b" ++ [Py.LF]) true true) /\
    exists e, load_file fs' s' = Ok e /\
      text e = [Py.str "a"; Py.str "b"] /\ text e <> text s.
Proof.
  split.
  - apply (bool_decide_unpack _). vm_compute. exact I.
  - do 2 eexists. split; [vm_compute; reflexivity|].
    split; [vm_compute; reflexivity|].
    eexists. split; [vm_compute; reflexivity|].
    split; [reflexivity|discriminate].
Qed.

(** C9, amended: for every Document whose lines contain neither a line feed
    nor a carriage return, a successful [save_file] leaves in the file each
    line followed by one line feed (the last line too, empty or not), and
    reading that text back as [load_file] does gives the same lines in the
    same order; when the file may be read, [load_file] of any editor on
    that file name returns with exactly those lines. *)
Theorem save_then_load_roundtrip (fs fs' : gmap string node) (s s' : TextEditor) :
  Forall no_newline (text s) ->
  save_file fs s = Ok (true, fs', s') ->
  exists path r w,
    named (filename s) = Some path /\
    text s' = text s /\
    fs' !! path = Some (Regular (file_of_lines (text s)) r w) /\
    map Py.rstrip_lf (readlines (file_of_lines (text s))) = text s /\
    (r = true -> forall e, filename e = filename s ->
       exists e', load_file fs' e = Ok e' /\ text e' = text s).
Proof.
  intros Hnl Hsave. unfold save_file in Hsave.
  destruct (named (filename s)) as [path|] eqn:Hn; [|done].
  destruct (save_body fs path (text s)) as [fs1|x] eqn:Hb; [|done].
  injection Hsave as <- <-.
  destruct (save_body_content _ _ _ _ Hb) as (r & w & Hfile & _).
  pose proof (readlines_file_of_lines (text s) Hnl) as Hrt.
  exists path, r, w. repeat (split; [done|]).
  intros -> e He. unfold load_file, open_read. rewrite He, Hn, Hfile.
  eexists. split; [reflexivity|]. simpl. exact Hrt.
Qed.

Lemma save_then_load_roundtrip_witness :
  Forall no_newline [Py.str "abc"; Py.str ""] /\
  exists fs' e',
    fs' !! "notes.txt" = Some (Regular (Py.str "abc" ++ [Py.LF; Py.LF]) true true) /\
    load_file fs' (named_editor "notes.txt" []) = Ok e' /\
    text e' = [Py.str "abc"; Py.str ""].
Proof.
  assert (Hnl : Forall no_newline (text (named_editor "notes.txt" [Py.str "abc"; Py.str ""]))).
  { apply (bool_decide_unpack _). vm_compute. exact I. }
  split; [exact Hnl|].
  destruct (save_then_load_roundtrip ∅
              (<["notes.txt" := Regular (Py.str "abc" ++ [Py.LF; Py.LF]) true true]> ∅)
              (named_editor "notes.txt" [Py.str "abc"; Py.str ""])
              (set_status_message "Saved: notes.txt" 5
                 (named_editor "notes.txt" [Py.str "abc"; Py.str ""]))
              Hnl)
    as (path & r & w & Hn & _ & Hfile & _ & Hload).
  { vm_compute. reflexivity. }
  injection Hn as <-.
  rewrite lookup_insert_eq in Hfile. injection Hfile as <- <-.
  destruct (Hload eq_refl (named_editor "notes.txt" [])) as (e' & He' & Ht);
    [reflexivity|].
  eexists _, e'. split; [apply lookup_insert_eq|]. split; [exact He'|exact Ht].
Defined.

(** * Further properties of the code *)

(** ** The clamp at the end of [process_keypress] *)

Lemma clamp_cursor_on_valid (s : TextEditor) : valid s -> clamp_cursor s = Ok s.
Proof.
  intros Hv. destruct (valid_line s Hv) as (l & Hl & Hy & Hx).
  unfold clamp_cursor. rewrite bool_decide_eq_false_2 by lia.
  rewrite (getitem_in_range (text s) (cursor_y s) l) by (done || lia). simpl.
  by rewrite bool_decide_eq_false_2 by lia.
Qed.

(** X1: On a document with a line and a cursor that is not negative, the
    clamp returns a state that satisfies the invariants, with the same
    document and ModifiedFlag; the row and the column only ever decrease,
    and a second clamp changes nothing. *)
Theorem clamp_cursor_restores (s : TextEditor) :
  text s <> [] -> 0 <= cursor_y s -> 0 <= cursor_x s ->
  exists s', clamp_cursor s = Ok s' /\ valid s' /\
    text s' = text s /\ modified s' = modified s /\
    cursor_y s' = Z.min (cursor_y s) (Py.len (text s) - 1) /\
    cursor_x s' <= cursor_x s /\
    clamp_cursor s' = Ok s'.
Proof.
  intros Hne Hy Hx.
  assert (Hlen : 1 <= Py.len (text s)).
  { unfold Py.len. destruct (text s); [done|]. simpl. lia. }
  set (y := Z.min (cursor_y s) (Py.len (text s) - 1)).
  destruct (lookup_lt_is_Some_2 (text s) (Z.to_nat y)) as [l Hl].
  { unfold Py.len in *. lia. }
  set (s1 := if bool_decide (cursor_y s >= Py.len (text s))
             then with_cursor_y (Py.len (text s) - 1) s else s).
  assert (H1 : cursor_y s1 = y /\ text s1 = text s /\ cursor_x s1 = cursor_x s
               /\ modified s1 = modified s).
  { unfold s1. case_bool_decide; simpl; repeat split; lia. }
  destruct H1 as (Hy1 & Ht1 & Hx1 & Hm1).
  assert (Hs' : exists s', clamp_cursor s = Ok s' /\ valid s' /\
            text s' = text s /\ modified s' = modified s /\
            cursor_y s' = y /\ cursor_x s' <= cursor_x s).
  { unfold clamp_cursor. fold s1.
    rewrite (getitem_in_range (text s1) (cursor_y s1) l)
      by (rewrite ?Hy1, ?Ht1; (done || lia)).
    simpl. case_bool_decide; eexists; (split; [reflexivity|]); simpl.
    - split; [|repeat split; (done || lia)].
      apply (valid_intro _ l); unfold row; simpl; rewrite ?Ht1, ?Hy1;
        (done || unfold Py.len in *; lia).
    - split; [|repeat split; (done || lia)].
      apply (valid_intro _ l); unfold row; rewrite ?Ht1, ?Hy1;
        (done || unfold Py.len in *; lia). }
  destruct Hs' as (s' & Hc & Hv & Ht & Hm & Hy' & Hx').
  exists s'. repeat (split; [done|]). by apply clamp_cursor_on_valid.
Qed.

Lemma clamp_cursor_restores_witness :
  exists s',
    clamp_cursor (editing [Py.str "ab"; Py.str "c"] 7 5) = Ok s' /\
    valid s' /\ cursor_y s' = 1 /\ s' = editing [Py.str "ab"; Py.str "c"] 1 1.
Proof.
  destruct (clamp_cursor_restores (editing [Py.str "ab"; Py.str "c"] 7 5))
    as (s' & Hc & Hv & _ & _ & Hy & _); [discriminate | simpl; lia | simpl; lia |].
  exists s'. split; [exact Hc|]. split; [exact Hv|]. split; [exact Hy|].
  vm_compute in Hc. injection Hc as <-. reflexivity.
Defined.

(** ** Every key leaves a valid state *)

Lemma valid_ext (s s' : TextEditor) :
  text s' = text s -> cursor_x s' = cursor_x s -> cursor_y s' = cursor_y s ->
  valid s -> valid s'.
Proof.
  intros Ht Hx Hy. unfold valid, document_inv, cursor_inv, row.
  by rewrite Ht, Hx, Hy.
Qed.

Lemma scroll_if_needed_frame (w : world) (s : TextEditor) :
  text (scroll_if_needed w s) = text s /\
  cursor_x (scroll_if_needed w s) = cursor_x s /\
  cursor_y (scroll_if_needed w s) = cursor_y s /\
  modified (scroll_if_needed w s) = modified s /\
  filename (scroll_if_needed w s) = filename s /\
  scroll_inv w (scroll_if_needed w s).
Proof.
  unfold scroll_inv, scroll_if_needed, scroll_to_cursor, calculate_editor_space,
    min_editor_lines.
  repeat case_bool_decide; simpl in *; repeat split; lia.
Qed.

Lemma save_file_frame (fs fs' : gmap string node) (s s' : TextEditor) (saved : bool) :
  save_file fs s = Ok (saved, fs', s') ->
  text s' = text s /\ cursor_x s' = cursor_x s /\ cursor_y s' = cursor_y s /\
  scroll_y s' = scroll_y s /\ filename s' = filename s /\
  modified s' = (if saved then false else modified s).
Proof.
  unfold save_file. destruct (named (filename s)) as [path|].
  - destruct (save_body fs path (text s)); intros [= <- <- <-]; done.
  - intros [= <- <- <-]. done.
Qed.

Lemma finish_on_valid (w : world) (r : result TextEditor) (s1 : TextEditor) :
  r = Ok s1 -> valid s1 ->
  (s ← r; s ← clamp_cursor s; Ok (true, w, scroll_if_needed w s))
    = Ok (true, w, scroll_if_needed w s1).
Proof. intros -> Hv. simpl. by rewrite clamp_cursor_on_valid. Qed.

Lemma process_keypress_on_valid (key : Z) (w : world) (s : TextEditor) :
  valid s ->
  exists leave w' s',
    process_keypress key w s = Ok (leave, w', s') /\
    valid s' /\ height w' = height w /\ width w' = width w /\
    (key <> 24 ->
       leave = true /\ scroll_inv w' s' /\ consumed w' = consumed w).
Proof.
  intros Hv.
  assert (Hfin : forall w1 r s1, r = Ok s1 -> valid s1 ->
            height w1 = height w -> width w1 = width w ->
            consumed w1 = consumed w ->
            exists leave w' s',
              (s ← r; s ← clamp_cursor s; Ok (true, w1, scroll_if_needed w1 s))
                = Ok (leave, w', s') /\
              valid s' /\ height w' = height w /\ width w' = width w /\
              (key <> 24 ->
                 leave = true /\ scroll_inv w' s' /\ consumed w' = consumed w)).
  { intros w1 r s1 Hr Hv1 Hh Hw Hc.
    exists true, w1, (scroll_if_needed w1 s1).
    split; [by apply finish_on_valid|].
    destruct (scroll_if_needed_frame w1 s1) as (Ht & Hx & Hy & _ & _ & Hsc).
    split; [by apply (valid_ext s1)|]. done. }
  unfold process_keypress. cbv zeta.
  destruct (is_motion key).
  { destruct (move_cursor_on_valid key s Hv) as (s1 & Hs1 & _ & _ & Hv1).
    by apply (Hfin w _ s1). }
  case_bool_decide as Henter.
  { destruct (insert_newline_keeps_valid s Hv) as (s1 & Hs1 & Hv1).
    by apply (Hfin w _ s1). }
  case_bool_decide as Hback.
  { destruct (delete_char_keeps_valid s Hv) as (s1 & Hs1 & Hv1).
    by apply (Hfin w _ s1). }
  case_bool_decide as Hdc; [by apply (Hfin w _ s)|].
  case_bool_decide as Hexit.
  { destruct (modified s); [|by exists false, w, s].
    unfold getch.
    set (w1 := mkWorld (files w) (height w) (width w) (input w) (S (consumed w))).
    set (p := set_status_message _ 100 s).
    assert (Hvp : valid p) by by apply (valid_ext s).
    case_bool_decide.
    - destruct (save_file_returns (files w1) p) as (saved & fs' & s' & Hs).
      rewrite Hs. destruct (save_file_frame _ _ _ _ _ Hs) as (Ht & Hx & Hy & _).
      assert (valid s') by by apply (valid_ext p).
      destruct saved; do 3 eexists; (split; [reflexivity|]); done.
    - case_bool_decide; do 3 eexists; (split; [reflexivity|]);
        (split; [|done]); by apply (valid_ext s). }
  case_bool_decide as Hsave.
  { destruct (save_file_returns (files w) s) as (saved & fs' & s' & Hs).
    rewrite Hs. destruct (save_file_frame _ _ _ _ _ Hs) as (Ht & Hx & Hy & _).
    apply (Hfin (with_files fs' w) _ s'); try done. by apply (valid_ext s). }
  case_bool_decide as Hprint.
  { destruct (insert_char_keeps_valid s key Hv) as (s1 & Hs1 & Hv1); [lia|].
    by apply (Hfin w _ s1). }
  by apply (Hfin w _ s).
Qed.

(** X2: From a state that satisfies the invariants, [process_keypress]
    returns for every key, with no exception and in a state that satisfies
    them again.  For every key but Ctrl+X the answer is [True], no further
    key is read, and the cursor row is inside the scroll window. *)
Theorem process_keypress_keeps_valid (key : Z) (w : world) (s : TextEditor) :
  valid s ->
  exists leave w' s',
    process_keypress key w s = Ok (leave, w', s') /\
    valid s' /\ height w' = height w /\ width w' = width w /\
    (key <> 24 ->
       leave = true /\ scroll_inv w' s' /\ consumed w' = consumed w).
Proof. apply process_keypress_on_valid. Qed.

Lemma process_keypress_keeps_valid_witness :
  valid (editing [Py.str "ab"] 2 0) /\
  exists w' s',
    process_keypress (Py.ord "c") (terminal 24 80 0) (editing [Py.str "ab"] 2 0)
      = Ok (true, w', s') /\
    valid s' /\ scroll_inv w' s'.
Proof.
  assert (Hv : valid (editing [Py.str "ab"] 2 0)).
  { apply (bool_decide_unpack _). vm_compute. exact I. }
  split; [exact Hv|].
  destruct (process_keypress_keeps_valid (Py.ord "c") (terminal 24 80 0) _ Hv)
    as (leave & w' & s' & Hk & Hv' & _ & _ & Hrest).
  destruct Hrest as (-> & Hsc & _); [vm_compute; discriminate|].
  exists w', s'. split; [exact Hk|]. split; [exact Hv'|exact Hsc].
Defined.

(** ** No key puts a line break inside a line *)

Lemma no_newline_app (a b : list Z) :
  no_newline (a ++ b) <-> no_newline a /\ no_newline b.
Proof. unfold no_newline. rewrite !not_elem_of_app. tauto. Qed.

Lemma no_newline_take_drop (n : nat) (l : list Z) :
  no_newline l -> no_newline (take n l) /\ no_newline (drop n l).
Proof. intros H. apply no_newline_app. by rewrite take_drop. Qed.

Lemma no_newline_printable (ch : Z) : 32 <= ch <= 126 -> no_newline [ch].
Proof.
  intros H. unfold no_newline, Py.LF, Py.CR.
  rewrite !list_elem_of_singleton. lia.
Qed.

Lemma newline_free_lookup (s : TextEditor) (i : nat) (l : list Z) :
  newline_free s -> text s !! i = Some l -> no_newline l.
Proof. intros H Hl. exact (Forall_lookup_1 _ _ _ _ H Hl). Qed.

Lemma insert_char_newline_free (s s' : TextEditor) (ch : Z) :
  valid s -> newline_free s -> 32 <= ch <= 126 ->
  insert_char ch s = Ok s' -> newline_free s'.
Proof.
  intros Hv Hnf Hch. destruct (valid_line s Hv) as (l & Hl & _).
  rewrite (insert_char_valid s ch l) by (done || lia). intros [= <-].
  unfold newline_free in *. simpl. apply Forall_insert; [done|].
  pose proof (newline_free_lookup s _ l Hnf Hl) as Hln.
  destruct (no_newline_take_drop (col s) l Hln).
  apply no_newline_app. split; [done|].
  apply (no_newline_app [ch]). split; [by apply no_newline_printable|done].
Qed.

Lemma insert_newline_newline_free (s s' : TextEditor) :
  valid s -> newline_free s -> insert_newline s = Ok s' -> newline_free s'.
Proof.
  intros Hv Hnf. destruct (valid_line s Hv) as (l & Hl & _).
  rewrite (insert_newline_valid s l) by done. intros [= <-].
  unfold newline_free in *. simpl.
  pose proof (newline_free_lookup s _ l Hnf Hl) as Hln.
  destruct (no_newline_take_drop (col s) l Hln).
  apply Forall_app. split; [by apply Forall_take|].
  repeat (apply Forall_cons; split; [done|]). by apply Forall_drop.
Qed.

Lemma delete_char_newline_free (s s' : TextEditor) :
  valid s -> newline_free s -> delete_char s = Ok s' -> newline_free s'.
Proof.
  intros Hv Hnf. destruct (valid_line s Hv) as (l & Hl & Hy & Hx).
  pose proof (newline_free_lookup s _ l Hnf Hl) as Hln.
  destruct (decide (cursor_x s > 0)) as [Hpos|Hzero].
  { rewrite (delete_char_in_line s l) by done. intros [= <-].
    unfold newline_free in *. simpl. apply Forall_insert; [done|].
    destruct (no_newline_take_drop (col s - 1) l Hln).
    destruct (no_newline_take_drop (col s) l Hln).
    by apply no_newline_app. }
  destruct (decide (cursor_y s > 0)) as [Hrow|Htop].
  { destruct (lookup_lt_is_Some_2 (text s) (row s - 1)) as [prev Hprev].
    { unfold row, Py.len in *. lia. }
    rewrite (delete_char_join s l prev) by (done || lia). intros [= <-].
    unfold newline_free in *. simpl.
    pose proof (newline_free_lookup s _ prev Hnf Hprev) as Hpn.
    apply Forall_app. split; [by apply Forall_take|].
    apply Forall_cons. split; [by apply no_newline_app|by apply Forall_drop]. }
  rewrite delete_char_at_origin by (done || lia). by intros [= <-].
Qed.

Lemma newline_free_ext (s s' : TextEditor) :
  text s' = text s -> newline_free s -> newline_free s'.
Proof. unfold newline_free. by intros ->. Qed.

Lemma process_keypress_on_newline_free
    (key : Z) (w w' : world) (s s' : TextEditor) (leave : bool) :
  valid s -> newline_free s ->
  process_keypress key w s = Ok (leave, w', s') ->
  newline_free s'.
Proof.
  intros Hv Hnf.
  assert (Hfin : forall w1 r s1, r = Ok s1 -> valid s1 -> newline_free s1 ->
            (s ← r; s ← clamp_cursor s; Ok (true, w1, scroll_if_needed w1 s))
              = Ok (leave, w', s') -> newline_free s').
  { intros w1 r s1 Hr Hv1 Hnf1. rewrite (finish_on_valid w1 r s1) by done.
    intros [= <- <- <-].
    destruct (scroll_if_needed_frame w1 s1) as (Ht & _).
    by apply (newline_free_ext s1). }
  unfold process_keypress. cbv zeta.
  destruct (is_motion key).
  { destruct (move_cursor_on_valid key s Hv) as (s1 & Hs1 & Ht & _ & Hv1).
    apply (Hfin w _ s1); try done. by apply (newline_free_ext s). }
  case_bool_decide as Henter.
  { destruct (insert_newline_keeps_valid s Hv) as (s1 & Hs1 & Hv1).
    apply (Hfin w _ s1); try done. by apply (insert_newline_newline_free s). }
  case_bool_decide as Hback.
  { destruct (delete_char_keeps_valid s Hv) as (s1 & Hs1 & Hv1).
    apply (Hfin w _ s1); try done. by apply (delete_char_newline_free s). }
  case_bool_decide as Hdc; [by apply (Hfin w _ s)|].
  case_bool_decide as Hexit.
  { destruct (modified s); [|by intros [= <- <- <-]].
    unfold getch.
    set (w1 := mkWorld (files w) (height w) (width w) (input w) (S (consumed w))).
    set (p := set_status_message _ 100 s).
    case_bool_decide.
    - destruct (save_file_returns (files w1) p) as (saved & fs' & s1 & Hs).
      rewrite Hs. destruct (save_file_frame _ _ _ _ _ Hs) as (Ht & _).
      destruct saved; intros [= <- <- <-]; by apply (newline_free_ext s).
    - case_bool_decide; intros [= <- <- <-]; by apply (newline_free_ext s). }
  case_bool_decide as Hsave.
  { destruct (save_file_returns (files w) s) as (saved & fs' & s1 & Hs).
    rewrite Hs. destruct (save_file_frame _ _ _ _ _ Hs) as (Ht & Hx & Hy & _).
    apply (Hfin (with_files fs' w) _ s1); try done.
    - by apply (valid_ext s).
    - by apply (newline_free_ext s). }
  case_bool_decide as Hprint.
  { destruct (insert_char_keeps_valid s key Hv) as (s1 & Hs1 & Hv1); [lia|].
    apply (Hfin w _ s1); try done. by apply (insert_char_newline_free s _ key). }
  by apply (Hfin w _ s).
Qed.

(** X3: From a valid state whose lines have no line feed and no carriage
    return in them, the lines after any key have none either: Enter splits a
    line and is never stored in one, and the only characters inserted are
    the printable ones. *)
Theorem process_keypress_keeps_newline_free
    (key : Z) (w w' : world) (s s' : TextEditor) (leave : bool) :
  valid s -> newline_free s ->
  process_keypress key w s = Ok (leave, w', s') ->
  newline_free s'.
Proof. apply process_keypress_on_newline_free. Qed.

Lemma process_keypress_keeps_newline_free_witness :
  valid (editing [Py.str "ab"] 1 0) /\ newline_free (editing [Py.str "ab"] 1 0) /\
  exists w' s',
    process_keypress 13 (terminal 24 80 0) (editing [Py.str "ab"] 1 0)
      = Ok (true, w', s') /\
    text s' = [Py.str "a"; Py.str "b"] /\ newline_free s'.
Proof.
  assert (Hv : valid (editing [Py.str "ab"] 1 0)).
  { apply (bool_decide_unpack _). vm_compute. exact I. }
  assert (Hnf : newline_free (editing [Py.str "ab"] 1 0)).
  { unfold newline_free. apply (bool_decide_unpack _). vm_compute. exact I. }
  split; [exact Hv|]. split; [exact Hnf|].
  do 2 eexists. split; [vm_compute; reflexivity|]. split; [reflexivity|].
  eapply (process_keypress_keeps_newline_free 13 (terminal 24 80 0) _ _ _ true Hv Hnf).
  vm_compute. reflexivity.
Defined.

(** ** A document with no line *)

Lemma getitem_nil {A} (i : Z) : Py.getitem (@nil A) i = Raise IndexError.
Proof.
  unfold Py.getitem, Py.index, Py.len. simpl.
  by rewrite !bool_decide_eq_false_2 by lia.
Qed.

Lemma clamp_cursor_nil (s : TextEditor) :
  text s = [] -> clamp_cursor s = Raise IndexError.
Proof.
  intros Ht. unfold clamp_cursor. case_bool_decide; simpl; rewrite Ht;
    by rewrite getitem_nil.
Qed.

Lemma move_cursor_nil (key : Z) (s : TextEditor) :
  text s = [] ->
  move_cursor key s = Raise IndexError \/
  exists s1, move_cursor key s = Ok s1 /\ text s1 = [].
Proof.
  intros Ht. unfold move_cursor. rewrite Ht.
  repeat case_bool_decide; rewrite ?getitem_nil; simpl; eauto.
Qed.

Lemma universal_newlines_nil_inv (u : list Z) :
  universal_newlines u = [] -> u = [].
Proof. destruct u as [|c r]; [done|]. simpl. by case_bool_decide. Qed.

Lemma split_keepends_nil_inv (u : list Z) : split_keepends u = [] -> u = [].
Proof.
  destruct u as [|c r]; [done|]. simpl. case_bool_decide; [done|].
  by destruct (split_keepends r).
Qed.

(** [load_file] gives a document with no line exactly for a file that is
    there and empty. *)
Lemma load_file_empty_document (fs : gmap string node) (s s' : TextEditor) :
  load_file fs s = Ok s' ->
  (text s' = [] <->
   exists path, named (filename s) = Some path /\ open_read fs path = Ok []).
Proof.
  unfold load_file. destruct (named (filename s)) as [path|].
  - destruct (open_read fs path) as [content|e] eqn:E.
    + intros [= <-]. simpl. unfold readlines. split.
      * intros Hnil. exists path. split; [done|]. rewrite E. f_equal.
        apply universal_newlines_nil_inv, split_keepends_nil_inv.
        by destruct (split_keepends (universal_newlines content)).
      * intros (p & [= <-] & Hp). rewrite E in Hp. by injection Hp as ->.
    + destruct e; try done. intros [= <-]. simpl. split; [done|].
      intros (p & [= <-] & Hp). rewrite E in Hp. done.
  - intros [= <-]. simpl. split; [done|]. intros (p & ? & _). done.
Qed.

(** X4: On a document with no line, which is what an empty file loads as,
    every key except Enter, a printable character and Ctrl+X makes
    [process_keypress] raise [IndexError]: the arrows, Home and End,
    Backspace, Delete and Ctrl+S among them. *)
Theorem process_keypress_raises_on_empty_document
    (key : Z) (w : world) (s : TextEditor) :
  text s = [] -> ~ inserts key -> key <> 24 ->
  process_keypress key w s = Raise IndexError.
Proof.
  intros Ht Hins Hexit. unfold inserts in Hins.
  unfold process_keypress. cbv zeta.
  destruct (is_motion key).
  { destruct (move_cursor_nil key s Ht) as [->|(s1 & -> & Ht1)]; [done|].
    simpl. by rewrite clamp_cursor_nil. }
  rewrite (bool_decide_eq_false_2 (key = 10 \/ key = 13)) by tauto.
  case_bool_decide as Hback.
  { unfold delete_char. rewrite Ht. simpl. by rewrite clamp_cursor_nil. }
  case_bool_decide as Hdc; [simpl; by rewrite clamp_cursor_nil|].
  rewrite (bool_decide_eq_false_2 (key = 24)) by done.
  case_bool_decide as Hsave.
  { destruct (save_file_returns (files w) s) as (saved & fs' & s1 & Hs).
    rewrite Hs. destruct (save_file_frame _ _ _ _ _ Hs) as (Ht1 & _).
    simpl. rewrite clamp_cursor_nil; [done|congruence]. }
  rewrite (bool_decide_eq_false_2 (32 <= key <= 126)) by tauto.
  simpl. by rewrite clamp_cursor_nil.
Qed.

Lemma process_keypress_raises_on_empty_document_witness :
  exists s0,
    TextEditor_init empty_file_store (Some "empty.txt") = Ok s0 /\
    text s0 = [] /\
    process_keypress Key.RIGHT (terminal 24 80 0) s0 = Raise IndexError /\
    process_keypress 19 (terminal 24 80 0) s0 = Raise IndexError.
Proof.
  eexists. split; [vm_compute; reflexivity|]. split; [reflexivity|].
  split; apply process_keypress_raises_on_empty_document;
    (reflexivity || (unfold inserts; vm_compute; intuition (discriminate || lia))
     || (vm_compute; discriminate)).
Defined.

(** ** What [load_file] can return *)

Lemma universal_newlines_no_cr_upto (n : nat) :
  forall u, (length u <= n)%nat -> Py.CR ∉ universal_newlines u.
Proof.
  induction n as [|n IH]; intros u Hlen.
  - destruct u; [|simpl in Hlen; lia]. simpl. apply not_elem_of_nil.
  - destruct u as [|c r]; [apply not_elem_of_nil|]. simpl in *.
    case_bool_decide as Hc.
    + apply not_elem_of_cons. split; [done|].
      destruct r as [|c' r']; [apply not_elem_of_nil|]. simpl in Hlen.
      case_bool_decide; apply IH; simpl; lia.
    + apply not_elem_of_cons. split; [done|]. apply IH. lia.
Qed.

Lemma universal_newlines_no_cr (u : list Z) : Py.CR ∉ universal_newlines u.
Proof. by apply (universal_newlines_no_cr_upto (length u)). Qed.

Lemma rstrip_lf_no_lf (l : list Z) : Py.LF ∉ l -> Py.rstrip_lf l = l.
Proof.
  induction l as [|c l IH]; [done|]. intros Hlf.
  apply not_elem_of_cons in Hlf as [Hc Hl]. simpl. rewrite IH by done.
  destruct l; [|done]. by rewrite bool_decide_eq_false_2.
Qed.

Lemma split_keepends_stripped (u : list Z) :
  Py.CR ∉ u -> Forall (fun l => no_newline (Py.rstrip_lf l)) (split_keepends u).
Proof.
  assert (Hshape : forall u, Py.CR ∉ u ->
            Forall (fun l => (Py.CR ∉ l) /\
                      exists l', (Py.LF ∉ l') /\ (l = l' \/ l = l' ++ [Py.LF]))
              (split_keepends u)).
  { clear u. induction u as [|c r IH]; intros Hcr; [constructor|].
    apply not_elem_of_cons in Hcr as [Hc Hr]. specialize (IH Hr). simpl.
    case_bool_decide as Hlf.
    - constructor; [|done]. split.
      + apply not_elem_of_cons. split; [done|apply not_elem_of_nil].
      + exists []. split; [apply not_elem_of_nil|]. right. by rewrite Hlf.
    - destruct (split_keepends r) as [|l ls].
      + constructor; [|done]. split.
        * apply not_elem_of_cons. split; [done|apply not_elem_of_nil].
        * exists [c]. split; [|by left].
          apply not_elem_of_cons. split; [done|apply not_elem_of_nil].
      + inversion IH as [|? ? (Hlcr & l' & Hl' & Hll) Hls]; subst.
        constructor; [|done]. split.
        * apply not_elem_of_cons. by split.
        * exists (c :: l'). split.
          { apply not_elem_of_cons. by split. }
          destruct Hll as [->| ->]; [by left|by right]. }
  intros Hcr. eapply Forall_impl; [by apply Hshape|].
  intros l (Hlcr & l' & Hl' & [->| ->]).
  - rewrite rstrip_lf_no_lf by done. by split.
  - rewrite rstrip_lf_line by done. split; [done|].
    by apply not_elem_of_app in Hlcr as [? _].
Qed.

(** X5: Whatever the store holds, a document that [load_file] returns has no
    line feed and no carriage return inside any of its lines, and the
    cursor, the scroll offset and the ModifiedFlag are as before.  The
    document has no line at all exactly when the file is there and is empty;
    otherwise the invariant of the document holds. *)
Theorem load_file_document (fs : gmap string node) (s s' : TextEditor) :
  load_file fs s = Ok s' ->
  newline_free s' /\
  cursor_x s' = cursor_x s /\ cursor_y s' = cursor_y s /\
  scroll_y s' = scroll_y s /\ modified s' = modified s /\
  filename s' = filename s /\
  (text s' = [] <->
   exists path, named (filename s) = Some path /\ open_read fs path = Ok []) /\
  (text s' <> [] -> document_inv s').
Proof.
  intros Hload. pose proof (load_file_empty_document fs s s' Hload) as Hempty.
  assert (Hdoc : text s' <> [] -> document_inv s').
  { unfold document_inv, Py.len. destruct (text s'); [done|]. simpl. lia. }
  unfold load_file in Hload. unfold newline_free.
  destruct (named (filename s)) as [path|].
  - destruct (open_read fs path) as [content|e].
    + injection Hload as <-. simpl in *. repeat (split; [|done]).
      apply Forall_fmap. apply split_keepends_stripped, universal_newlines_no_cr.
    + destruct e; try done. injection Hload as <-. simpl in *.
      repeat (split; [|done]). repeat constructor; apply not_elem_of_nil.
  - injection Hload as <-. simpl in *.
    repeat (split; [|done]). repeat constructor; apply not_elem_of_nil.
Qed.

Lemma load_file_document_witness :
  exists s',
    load_file dos_file_store (named_editor "dos.txt" []) = Ok s' /\
    text s' = [Py.str "ab"; Py.str "c"] /\ newline_free s' /\ document_inv s'.
Proof.
  eexists. split; [vm_compute; reflexivity|]. split; [reflexivity|].
  destruct (load_file_document dos_file_store (named_editor "dos.txt" []) _ eq_refl)
    as (Hnf & _ & _ & _ & _ & _ & _ & Hdoc).
  split; [exact Hnf|]. apply Hdoc. discriminate.
Defined.

(** ** The loop of [run] *)

Lemma handle_key_on_valid (key : Z) (w : world) (c : CatEditor) :
  valid (editor c) -> newline_free (editor c) ->
  exists w' c', handle_key key w c = Ok (w', c') /\
    valid (editor c') /\ newline_free (editor c') /\
    height w' = height w /\ width w' = width w.
Proof.
  intros Hv Hnf. unfold handle_key.
  case_bool_decide as Hq.
  { destruct (modified (editor c)); do 2 eexists; (split; [reflexivity|]); done. }
  case_bool_decide as Hexit.
  { destruct (modified (editor c));
      [|do 2 eexists; (split; [reflexivity|]); done].
    unfold getch.
    set (w1 := mkWorld (files w) (height w) (width w) (input w) (S (consumed w))).
    set (e := set_status_message _ 5 (editor c)).
    case_bool_decide.
    - destruct (save_file_returns (files w1) e) as (saved & fs' & e' & Hs).
      rewrite Hs. destruct (save_file_frame _ _ _ _ _ Hs) as (Ht & Hx & Hy & _).
      assert (valid e') by by apply (valid_ext (editor c)).
      assert (newline_free e') by by apply (newline_free_ext (editor c)).
      destruct saved; do 2 eexists; (split; [reflexivity|]); done.
    - case_bool_decide; do 2 eexists; (split; [reflexivity|]); done. }
  destruct (process_keypress_on_valid key w (editor c) Hv)
    as (leave & w' & s' & Hk & Hv' & Hh & Hw & _).
  rewrite Hk. do 2 eexists. split; [reflexivity|]. simpl.
  split; [done|]. split; [|done].
  by apply (process_keypress_on_newline_free key w w' (editor c) s' leave).
Qed.

Lemma run_on_valid (turns : nat) :
  forall (w : world) (c : CatEditor),
    valid (editor c) -> newline_free (editor c) ->
    exists w' c', run turns w c = Ok (w', c') /\
      valid (editor c') /\ newline_free (editor c') /\
      height w' = height w /\ width w' = width w.
Proof.
  induction turns as [|n IH]; intros w c Hv Hnf; simpl.
  - by exists w, c.
  - destruct (running c); [|by exists w, c].
    unfold run_iteration. destruct (draw_cat w (editor c)).
    + unfold getch.
      set (w1 := mkWorld (files w) (height w) (width w) (input w) (S (consumed w))).
      destruct (handle_key_on_valid (input w (consumed w)) w1 c Hv Hnf)
        as (w2 & c2 & Hk & Hv2 & Hnf2 & Hh & Hw).
      rewrite Hk.
      destruct (IH w2 c2 Hv2 Hnf2) as (w' & c' & Hr & ? & ? & Hh' & Hw').
      exists w', c'. split; [done|]. subst w1. simpl in *.
      split; [done|]. split; [done|]. split; congruence.
    + by apply IH.
Qed.

Lemma CatEditor_init_valid (w : world) (name : option string) (c : CatEditor) :
  CatEditor_init w name = Ok c -> text (editor c) <> [] ->
  valid (editor c) /\ newline_free (editor c) /\
  running c = true /\ modified (editor c) = false.
Proof.
  unfold CatEditor_init, TextEditor_init.
  destruct (load_file (files w) _) as [e|x] eqn:Hload; [|done].
  intros [= <-] Hne. simpl in *.
  assert (Hnf : newline_free e /\ cursor_x e = 0 /\ cursor_y e = 0 /\ modified e = false).
  { unfold load_file in Hload. simpl in Hload. unfold newline_free.
    destruct (named name) as [path|].
    - destruct (open_read (files w) path) as [content|x].
      + injection Hload as <-. simpl. split; [|done]. apply Forall_fmap.
        apply split_keepends_stripped, universal_newlines_no_cr.
      + destruct x; try done. injection Hload as <-. simpl. split; [|done].
        repeat constructor; apply not_elem_of_nil.
    - injection Hload as <-. simpl. split; [|done].
      repeat constructor; apply not_elem_of_nil. }
  destruct Hnf as (Hnf & Hx & Hy & Hm).
  split; [|done]. destruct (text e) as [|l t] eqn:Et; [done|].
  apply (valid_intro _ l); unfold row, Py.len; rewrite ?Et, ?Hx, ?Hy; simpl;
    (done || lia).
Qed.

(** X6: The handling of keys in a session that starts on a document with a
    line never raises.  On a terminal that passes the size guard of
    [draw_cat], whatever the store and the stream of keys, [run] (painting
    apart, which the embedding leaves out) returns after any number of
    turns, and the editor it leaves satisfies the invariants of the document
    and the cursor and has no line break inside a line.  A document has a
    line unless the file was there and empty. *)
Theorem session_never_raises (w : world) (name : option string) (c : CatEditor)
    (turns : nat) :
  height w >= 10 -> width w >= 50 ->
  CatEditor_init w name = Ok c -> text (editor c) <> [] ->
  exists w' c', run turns w c = Ok (w', c') /\
    valid (editor c') /\ newline_free (editor c').
Proof.
  intros _ _ Hinit Hne.
  destruct (CatEditor_init_valid w name c Hinit Hne) as (Hv & Hnf & _).
  destruct (run_on_valid turns w c Hv Hnf) as (w' & c' & Hr & Hv' & Hnf' & _).
  by exists w', c'.
Qed.

Lemma session_never_raises_witness :
  height (terminal 24 80 (Py.ord "a")) >= 10 /\
  width (terminal 24 80 (Py.ord "a")) >= 50 /\
  exists c w' c',
    CatEditor_init (terminal 24 80 (Py.ord "a")) None = Ok c /\
    run 3 (terminal 24 80 (Py.ord "a")) c = Ok (w', c') /\
    text (editor c') = [Py.str "aaa"] /\ valid (editor c').
Proof.
  split; [simpl; lia|]. split; [simpl; lia|].
  exists (mkCatEditor (mkTextEditor None [[]] 0 0 0 "New buffer" 5 false) true).
  destruct (session_never_raises (terminal 24 80 (Py.ord "a")) None
              (mkCatEditor (mkTextEditor None [[]] 0 0 0 "New buffer" 5 false) true) 3)
    as (w' & c' & Hr & Hv & _);
    [simpl; lia | simpl; lia | reflexivity | discriminate |].
  exists w', c'. split; [reflexivity|]. split; [exact Hr|].
  split; [|exact Hv].
  vm_compute in Hr. injection Hr as _ <-. reflexivity.
Defined.

(** ** What a save leaves in the store *)

Lemma write_lines_store (path : string) (t : list line) :
  forall (fs : gmap string node) c r w,
    fs !! path = Some (Regular c r w) ->
    foldl (fun fs l => write path fs (l ++ [Py.LF])) fs t
      = <[path := Regular (c ++ file_of_lines t) r w]> fs.
Proof.
  induction t as [|l t IH]; intros fs c r w Hfs; simpl.
  - unfold file_of_lines. simpl. rewrite app_nil_r. symmetry. by apply insert_id.
  - unfold write at 2. rewrite Hfs.
    rewrite (IH _ (c ++ l ++ [Py.LF]) r w) by apply lookup_insert_eq.
    rewrite insert_insert_eq, file_of_lines_cons. do 2 f_equal.
    by rewrite <- !app_assoc.
Qed.

Lemma save_body_store (fs fs' : gmap string node) (path : string) (t : list line) :
  save_body fs path t = Ok fs' <->
  exists r,
    (fs !! path = None /\ r = true \/ exists c, fs !! path = Some (Regular c r true)) /\
    fs' = <[path := Regular (file_of_lines t) r true]> fs.
Proof.
  unfold save_body, open_write.
  destruct (fs !! path) as [[c r w|]|] eqn:E; simpl.
  - destruct w; simpl.
    + rewrite (write_lines_store path t _ [] r true) by apply lookup_insert_eq.
      rewrite insert_insert_eq. simpl. split.
      * intros [= <-]. exists r. split; [right; by exists c|done].
      * intros (r' & [[? _]|(c' & [= _ <-])] & ->); done.
    + split; [done|]. intros (r' & [[? _]|(c' & ?)] & _); done.
  - split; [done|]. intros (r' & [[? _]|(c' & ?)] & _); done.
  - rewrite (write_lines_store path t _ [] true true) by apply lookup_insert_eq.
    rewrite insert_insert_eq. simpl. split.
    + intros [= <-]. exists true. split; [by left|done].
    + intros (r' & [[_ ->]|(c' & ?)] & ->); done.
Qed.



(** ** Loading and saving again *)

Lemma rstrip_lf_cons (c : Z) (l : list Z) :
  c <> Py.LF -> Py.rstrip_lf (c :: l) = c :: Py.rstrip_lf l.
Proof.
  intros Hc. simpl. destruct (Py.rstrip_lf l); [|done].
  by rewrite bool_decide_eq_false_2.
Qed.

Lemma terminated_cons (c : Z) (r : list Z) :
  r <> [] -> terminated (c :: r) = c :: terminated r.
Proof.
  intros Hr. unfold terminated. destruct r as [|c' r']; [done|].
  rewrite last_cons_cons. destruct (last (c' :: r')) eqn:E.
  - by case_bool_decide.
  - by apply last_None in E.
Qed.

Lemma file_of_stripped_lines (u : list Z) :
  file_of_lines (map Py.rstrip_lf (split_keepends u)) = terminated u.
Proof.
  induction u as [|c r IH]; [done|].
  change (split_keepends (c :: r))
    with (if bool_decide (c = Py.LF) then [c] :: split_keepends r
          else match split_keepends r with
               | [] => [[c]]
               | l :: ls => (c :: l) :: ls
               end).
  case_bool_decide as Hc.
  - subst c. rewrite map_cons, file_of_lines_cons, IH.
    change (Py.rstrip_lf [Py.LF]) with (@nil Z). rewrite app_nil_l.
    destruct r as [|c' r']; [done|].
    by rewrite (terminated_cons Py.LF (c' :: r')).
  - destruct (split_keepends r) as [|l ls] eqn:Hsp.
    + apply split_keepends_nil_inv in Hsp as ->.
      rewrite map_cons, file_of_lines_cons, rstrip_lf_cons by done.
      unfold terminated. simpl. by rewrite bool_decide_eq_false_2.
    + assert (r <> []) by (intros ->; done).
      rewrite (terminated_cons c r) by done. rewrite <- IH.
      rewrite !map_cons, !file_of_lines_cons, rstrip_lf_cons by done. done.
Qed.

Lemma universal_newlines_id (u : list Z) :
  Py.CR ∉ u -> universal_newlines u = u.
Proof.
  induction u as [|c r IH]; [done|]. intros Hcr.
  apply not_elem_of_cons in Hcr as [Hc Hr]. simpl.
  rewrite bool_decide_eq_false_2 by done. by rewrite IH.
Qed.

(** X8: Loading a file that may be read and written and saving it at once
    writes its text with every carriage return, and every carriage return
    followed by a line feed, turned into one line feed, and with a line feed
    added when the last line had none.  So a file with no carriage return
    that is empty or ends in a line feed is written back as it was. *)
Theorem load_then_save_normalises
    (fs : gmap string node) (s s1 : TextEditor) (path : string) (content : list Z) :
  named (filename s) = Some path ->
  fs !! path = Some (Regular content true true) ->
  load_file fs s = Ok s1 ->
  exists fs' s2,
    save_file fs s1 = Ok (true, fs', s2) /\
    fs' !! path
      = Some (Regular (terminated (universal_newlines content)) true true) /\
    (Py.CR ∉ content -> terminated content = content -> fs' = fs).
Proof.
  intros Hn Hfs Hload. unfold load_file, open_read in Hload.
  rewrite Hn, Hfs in Hload. injection Hload as <-.
  unfold save_file. simpl. rewrite Hn.
  assert (Hb : save_body fs path (map Py.rstrip_lf (readlines content))
               = Ok (<[path := Regular (terminated (universal_newlines content))
                                 true true]> fs)).
  { apply save_body_store. exists true. split; [right; by exists content|].
    unfold readlines. by rewrite file_of_stripped_lines. }
  rewrite Hb. do 2 eexists. split; [reflexivity|].
  split; [apply lookup_insert_eq|].
  intros Hcr Hterm. rewrite universal_newlines_id, Hterm by done.
  by apply insert_id.
Qed.

Lemma load_then_save_normalises_witness :
  let s1 := set_status_message "Read file: dos.txt" 5
              (named_editor "dos.txt" [Py.str "ab"; Py.str "c"]) in
  load_file dos_file_store (named_editor "dos.txt" []) = Ok s1 /\
  exists fs' s2,
    save_file dos_file_store s1 = Ok (true, fs', s2) /\
    fs' !! "dos.txt"
      = Some (Regular (Py.str "ab" ++ [Py.LF] ++ Py.str "c" ++ [Py.LF]) true true).
Proof.
  intros s1.
  assert (Hload : load_file dos_file_store (named_editor "dos.txt" []) = Ok s1)
    by (vm_compute; reflexivity).
  split; [exact Hload|].
  destruct (load_then_save_normalises dos_file_store
              (named_editor "dos.txt" []) s1 "dos.txt"
              (Py.str "ab" ++ [Py.CR; Py.LF] ++ Py.str "c"))
    as (fs' & s2 & Hsave & Hfile & _);
    [reflexivity | vm_compute; reflexivity | exact Hload |].
  exists fs', s2. split; [exact Hsave|exact Hfile].
Defined.

(** ** Edits that undo each other *)

Lemma TextEditor_eta (s : TextEditor) :
  mkTextEditor (filename s) (text s) (cursor_x s) (cursor_y s) (scroll_y s)
    (status_message s) (status_timer s) (modified s) = s.
Proof. by destruct s. Qed.

(** X9: On a valid state, Backspace right after a character was typed, and
    Backspace right after Enter, give back the document and the cursor as
    they were; what stays is the ModifiedFlag, which is set. *)
Theorem delete_char_undoes_insert (s : TextEditor) (ch : Z) :
  valid s -> 0 <= ch <= 1114111 ->
  (s1 ← insert_char ch s; delete_char s1) = Ok (with_modified true s) /\
  (s1 ← insert_newline s; delete_char s1) = Ok (with_modified true s).
Proof.
  intros Hv Hch. destruct (valid_line s Hv) as (l & Hl & Hy & Hx).
  assert (Hlen : (row s < length (text s))%nat) by (unfold row, Py.len in *; lia).
  assert (Hcol : (col s <= length l)%nat) by (unfold col, Py.len in *; lia).
  assert (Htk : length (take (col s) l) = col s) by (rewrite length_take; lia).
  split.
  - destruct (insert_char_keeps_valid s ch Hv Hch) as (s1 & Hs1 & Hv1).
    rewrite Hs1. simpl. rewrite (insert_char_valid s ch l) in Hs1 by done.
    injection Hs1 as <-.
    rewrite (delete_char_in_line _ (take (col s) l ++ ch :: drop (col s) l));
      [|done| |simpl; lia].
    2:{ unfold row. simpl. by apply list_lookup_insert_eq. }
    unfold row, col. simpl. fold (row s). fold (col s).
    replace (Z.to_nat (cursor_x s + 1)) with (S (col s)) by (unfold col; lia).
    replace (S (col s) - 1)%nat with (col s) by lia.
    rewrite take_app_length' by done. rewrite drop_past_middle by done.
    rewrite take_drop, list_insert_insert_eq, list_insert_id by done.
    unfold with_modified. do 2 f_equal. lia.
  - destruct (insert_newline_keeps_valid s Hv) as (s1 & Hs1 & Hv1).
    rewrite Hs1. simpl. rewrite (insert_newline_valid s l) in Hs1 by done.
    injection Hs1 as <-.
    assert (Ht : length (take (row s) (text s)) = row s)
      by (rewrite length_take; lia).
    set (t1 := take (row s) (text s)
                 ++ take (col s) l :: drop (col s) l :: drop (S (row s)) (text s)).
    set (s1 := mkTextEditor _ t1 _ _ _ _ _ _) in *.
    assert (Hrow1 : row s1 = S (row s)) by (unfold row; simpl; lia).
    assert (Hcur : text s1 !! row s1 = Some (drop (col s) l)).
    { rewrite Hrow1. unfold s1, t1. simpl text.
      rewrite (cons_middle (take (col s) l)), app_assoc.
      apply list_lookup_middle. rewrite length_app, Ht. simpl. lia. }
    assert (Hprev : text s1 !! (row s1 - 1)%nat = Some (take (col s) l)).
    { rewrite Hrow1. replace (S (row s) - 1)%nat with (row s) by lia.
      unfold s1, t1. simpl text. by apply list_lookup_middle. }
    rewrite (delete_char_join s1 _ _ Hv1 Hcur eq_refl) by (done || (simpl; lia)).
    rewrite Hrow1. replace (S (row s) - 1)%nat with (row s) by lia.
    change (text s1) with t1. change (filename s1) with (filename s).
    change (cursor_y s1) with (cursor_y s + 1).
    change (scroll_y s1) with (scroll_y s).
    change (status_message s1) with (status_message s).
    change (status_timer s1) with (status_timer s).
    assert (Htake : take (row s) t1 = take (row s) (text s)).
    { unfold t1. by rewrite take_app_length'. }
    assert (Hdrop : drop (S (S (row s))) t1 = drop (S (row s)) (text s)).
    { unfold t1.
      rewrite (cons_middle (take (col s) l)), (app_assoc (take (row s) (text s))).
      by rewrite drop_past_middle by (rewrite length_app, Ht; simpl; lia). }
    rewrite Htake, Hdrop, take_drop, take_drop_middle by done.
    unfold with_modified, Py.len. rewrite Htk.
    replace (Z.of_nat (col s)) with (cursor_x s) by (unfold col; lia).
    replace (cursor_y s + 1 - 1) with (cursor_y s) by lia. done.
Qed.

Lemma delete_char_undoes_insert_witness :
  valid (editing [Py.str "ab"; Py.str "cd"] 1 1) /\
  (s1 ← insert_newline (editing [Py.str "ab"; Py.str "cd"] 1 1); delete_char s1)
    = Ok (with_modified true (editing [Py.str "ab"; Py.str "cd"] 1 1)).
Proof.
  assert (Hv : valid (editing [Py.str "ab"; Py.str "cd"] 1 1)).
  { apply (bool_decide_unpack _). vm_compute. exact I. }
  split; [exact Hv|].
  refine (proj2 (delete_char_undoes_insert _ 120 Hv _)). lia.
Defined.

(** ** Left and Right undo each other *)

(** X10: On a valid state, wherever Right moves the cursor, within the line
    or to the start of the next one, Left brings it back; and wherever Left
    moves it, Right brings it back.  Only at the end of the last line (for
    Right) and at (0, 0) (for Left) does the first move do nothing. *)
Theorem left_and_right_are_inverse (s : TextEditor) :
  valid s ->
  (forall l, text s !! row s = Some l ->
     cursor_x s < Py.len l \/ cursor_y s < Py.len (text s) - 1 ->
     (s1 ← move_cursor Key.RIGHT s; move_cursor Key.LEFT s1) = Ok s) /\
  (cursor_x s > 0 \/ cursor_y s > 0 ->
     (s1 ← move_cursor Key.LEFT s; move_cursor Key.RIGHT s1) = Ok s).
Proof.
  intros Hv. destruct (valid_line s Hv) as (l & Hl & Hy & Hx).
  assert (Heta := TextEditor_eta s).
  split.
  - intros l' Hl' Hmove. assert (l' = l) as -> by congruence.
    unfold move_cursor at 2. simpl.
    rewrite (getitem_in_range (text s) (cursor_y s) l) by (done || lia). simpl.
    case_bool_decide as Hin; simpl.
    + unfold move_cursor. simpl.
      rewrite bool_decide_eq_true_2 by lia.
      unfold with_cursor_x. simpl.
      replace (cursor_x s + 1 - 1) with (cursor_x s) by lia. by rewrite Heta.
    + rewrite bool_decide_eq_true_2 by lia. simpl.
      unfold move_cursor. simpl.
      rewrite bool_decide_eq_true_2 by lia.
      replace (cursor_y s + 1 - 1) with (cursor_y s) by lia.
      rewrite (getitem_in_range (text s) (cursor_y s) l) by (done || lia). simpl.
      unfold with_cursor_x, with_cursor_y. simpl.
      replace (Py.len l) with (cursor_x s) by lia. by rewrite Heta.
  - intros Hmove. unfold move_cursor at 2. simpl.
    case_bool_decide as Hin; simpl.
    + unfold move_cursor. simpl.
      rewrite (getitem_in_range (text s) (cursor_y s) l) by (done || lia). simpl.
      rewrite bool_decide_eq_true_2 by lia.
      unfold with_cursor_x. simpl.
      replace (cursor_x s - 1 + 1) with (cursor_x s) by lia. by rewrite Heta.
    + rewrite bool_decide_eq_true_2 by lia.
      destruct (lookup_lt_is_Some_2 (text s) (row s - 1)) as [prev Hprev].
      { unfold row, Py.len in *. lia. }
      assert (Hr : Z.to_nat (cursor_y s - 1) = (row s - 1)%nat) by (unfold row; lia).
      rewrite (getitem_in_range (text s) (cursor_y s - 1) prev)
        by (lia || by rewrite Hr).
      simpl. unfold move_cursor. simpl.
      rewrite (getitem_in_range (text s) (cursor_y s - 1) prev)
        by (lia || by rewrite Hr).
      simpl. rewrite bool_decide_eq_false_2 by lia.
      rewrite bool_decide_eq_true_2 by lia.
      unfold with_cursor_x, with_cursor_y. simpl.
      replace (cursor_y s - 1 + 1) with (cursor_y s) by lia.
      replace 0 with (cursor_x s) by lia. by rewrite Heta.
Qed.

Lemma left_and_right_are_inverse_witness :
  valid (editing [Py.str "ab"; Py.str "cd"] 2 0) /\
  (s1 ← move_cursor Key.RIGHT (editing [Py.str "ab"; Py.str "cd"] 2 0);
   move_cursor Key.LEFT s1) = Ok (editing [Py.str "ab"; Py.str "cd"] 2 0) /\
  move_cursor Key.RIGHT (editing [Py.str "ab"; Py.str "cd"] 2 0)
    = Ok (editing [Py.str "ab"; Py.str "cd"] 0 1).
Proof.
  assert (Hv : valid (editing [Py.str "ab"; Py.str "cd"] 2 0)).
  { apply (bool_decide_unpack _). vm_compute. exact I. }
  split; [exact Hv|]. split; [|reflexivity].
  apply (proj1 (left_and_right_are_inverse _ Hv) (Py.str "ab")); [reflexivity|].
  right. vm_compute. reflexivity.
Defined.

(** ** Where the cursor is drawn *)

Lemma move_cursor_keeps_scroll (key : Z) (s s' : TextEditor) :
  move_cursor key s = Ok s' -> scroll_y s' = scroll_y s.
Proof.
  unfold move_cursor.
  repeat case_bool_decide;
    repeat match goal with
           | |- context [Py.getitem ?t ?i] => destruct (Py.getitem t i); simpl
           end;
    repeat case_bool_decide; intros [= <-]; done.
Qed.

Lemma delete_char_keeps_scroll (s s' : TextEditor) :
  valid s -> delete_char s = Ok s' -> scroll_y s' = scroll_y s.
Proof.
  intros Hv. destruct (valid_line s Hv) as (l & Hl & Hy & Hx).
  destruct (decide (cursor_x s > 0)) as [Hpos|Hzero].
  { rewrite (delete_char_in_line s l) by done. by intros [= <-]. }
  destruct (decide (cursor_y s > 0)) as [Hrow|Htop].
  { destruct (lookup_lt_is_Some_2 (text s) (row s - 1)) as [prev Hprev].
    { unfold row, Py.len in *. lia. }
    rewrite (delete_char_join s l prev) by (done || lia). by intros [= <-]. }
  rewrite delete_char_at_origin by (done || lia). by intros [= <-].
Qed.

(** X11: After any key but Ctrl+X on a valid state, on a terminal that
    passes the size guard, [draw_cat] draws the editor from row 3 and the
    row [draw] moves the cursor to is at or below row 3 and within the
    [calculate_editor_space] rows the scroll works with.  From a height of
    12 on these are the rows drawn, so the cursor is inside the editor area;
    and a scroll offset that was not negative stays so. *)
Theorem cursor_is_drawn_inside_editor
    (key : Z) (w w' : world) (s s' : TextEditor) (leave : bool) :
  valid s -> height w >= 10 -> width w >= 50 -> key <> 24 ->
  process_keypress key w s = Ok (leave, w', s') ->
  exists editor_end_row,
    draw_cat w' s' = Some (cat_head_height, editor_end_row) /\
    cat_head_height <= cursor_screen_y cat_head_height s'
      < cat_head_height + calculate_editor_space w' s' /\
    (height w >= 12 -> cursor_screen_y cat_head_height s' < editor_end_row) /\
    (0 <= scroll_y s -> 0 <= scroll_y s').
Proof.
  intros Hv Hh Hw Hkey Hk.
  assert (Hpos : 0 <= scroll_y s -> 0 <= scroll_y s').
  { revert Hk. unfold process_keypress. cbv zeta.
    assert (Hfin : forall w1 r s1, r = Ok s1 -> valid s1 -> scroll_y s1 = scroll_y s ->
              (s ← r; s ← clamp_cursor s; Ok (true, w1, scroll_if_needed w1 s))
                = Ok (leave, w', s') -> 0 <= scroll_y s -> 0 <= scroll_y s').
    { intros w1 r s1 Hr Hv1 Hsc. rewrite (finish_on_valid w1 r s1) by done.
      intros [= <- <- <-]. destruct (valid_line s1 Hv1) as (_ & _ & Hy & _).
      unfold scroll_if_needed, scroll_to_cursor.
      repeat case_bool_decide; simpl in *; lia. }
    destruct (valid_line s Hv) as (l & Hl & _).
    destruct (is_motion key).
    { destruct (move_cursor_on_valid key s Hv) as (s1 & Hs1 & _ & _ & Hv1).
      apply (Hfin w _ s1); try done.
      by apply (move_cursor_keeps_scroll key).  }
    case_bool_decide.
    { destruct (insert_newline_keeps_valid s Hv) as (s1 & Hs1 & Hv1).
      apply (Hfin w _ s1); try done.
      rewrite (insert_newline_valid s l) in Hs1 by done. by injection Hs1 as <-. }
    case_bool_decide.
    { destruct (delete_char_keeps_valid s Hv) as (s1 & Hs1 & Hv1).
      apply (Hfin w _ s1); try done.
      by apply delete_char_keeps_scroll. }
    case_bool_decide; [by apply (Hfin w _ s)|].
    rewrite (bool_decide_eq_false_2 (key = 24)) by done.
    case_bool_decide.
    { destruct (save_file_returns (files w) s) as (saved & fs' & s1 & Hs).
      rewrite Hs. destruct (save_file_frame _ _ _ _ _ Hs) as (Ht & Hx & Hy & Hsc & _).
      apply (Hfin (with_files fs' w) _ s1); try done. by apply (valid_ext s). }
    case_bool_decide.
    { destruct (insert_char_keeps_valid s key Hv) as (s1 & Hs1 & Hv1); [lia|].
      apply (Hfin w _ s1); try done.
      rewrite (insert_char_valid s key l) in Hs1 by (done || lia).
      by injection Hs1 as <-. }
    by apply (Hfin w _ s). }
  destruct (process_keypress_on_valid key w s Hv)
    as (leave0 & w0 & s0 & Hk0 & Hv' & Hh' & Hw' & Hrest).
  rewrite Hk in Hk0. injection Hk0 as <- <- <-.
  destruct (Hrest Hkey) as (_ & Hsc & _). unfold scroll_inv in Hsc.
  unfold draw_cat. rewrite bool_decide_eq_false_2 by lia.
  eexists. split; [reflexivity|]. unfold cursor_screen_y.
  split; [lia|]. split; [|done].
  intros H12. revert Hsc.
  unfold calculate_editor_space, min_editor_lines, cat_head_height,
    cat_bottom_height, Py.len.
  case_bool_decide; lia.
Qed.

(** On a terminal of 10 rows the cursor can be drawn below the editor
    area: after Enter is pressed four times on an empty buffer it is on
    screen row 7, and the area ends before row 6. *)
Example cursor_below_editor_on_small_terminal :
  exists w' c',
    run 4 (terminal 10 50 13) (mkCatEditor (editing [[]] 0 0) true) = Ok (w', c') /\
    draw_cat w' (editor c') = Some (3, 6) /\
    cursor_screen_y 3 (editor c') = 7.
Proof. do 2 eexists. split; [vm_compute; reflexivity|]. split; reflexivity. Qed.

Lemma cursor_is_drawn_inside_editor_witness :
  let s := with_cursor_y 20 (with_scroll_y 5 (editing (replicate 40 []) 0 0)) in
  let s' := with_cursor_y 21 (with_scroll_y 6 (editing (replicate 40 []) 0 0)) in
  valid s /\
  process_keypress Key.DOWN (terminal 24 80 0) s = Ok (true, terminal 24 80 0, s') /\
  cursor_screen_y 3 s' = 18 /\
  exists editor_end_row,
    draw_cat (terminal 24 80 0) s' = Some (3, editor_end_row) /\
    cursor_screen_y 3 s' < editor_end_row.
Proof.
  intros s s'.
  assert (Hv : valid s) by (apply (bool_decide_unpack _); vm_compute; exact I).
  assert (Hk : process_keypress Key.DOWN (terminal 24 80 0) s
               = Ok (true, terminal 24 80 0, s')) by (vm_compute; reflexivity).
  split; [exact Hv|]. split; [exact Hk|]. split; [reflexivity|].
  destruct (cursor_is_drawn_inside_editor Key.DOWN (terminal 24 80 0)
              (terminal 24 80 0) s s' true Hv)
    as (e & Hd & _ & Hin & _);
    [simpl; lia | simpl; lia | vm_compute; discriminate | exact Hk |].
  exists e. split; [exact Hd|]. apply Hin. simpl. lia.
Defined.

(** ** Keys that do nothing *)

Lemma scroll_if_needed_id (w : world) (s : TextEditor) :
  scroll_inv w s -> scroll_if_needed w s = s.
Proof.
  unfold scroll_inv, scroll_if_needed, scroll_to_cursor. intros Hsc.
  rewrite (bool_decide_eq_false_2
             (cursor_y s - scroll_y s >= calculate_editor_space w s)) by lia.
  by rewrite bool_decide_eq_false_2 by lia.
Qed.

(** X12: On a valid state whose cursor is inside the scroll window, a key
    that is none of the motion keys, Enter, Backspace, Ctrl+X, Ctrl+S and
    the printable characters changes nothing at all: [process_keypress]
    answers [True] and returns the world and the editor as they were.  The
    Delete key is one of them, as is every control character and function
    key the table does not list. *)
Theorem keys_without_action_change_nothing (key : Z) (w : world) (s : TextEditor) :
  valid s -> scroll_inv w s -> ~ has_action key ->
  process_keypress key w s = Ok (true, w, s).
Proof.
  intros Hv Hsc Hno. unfold has_action in Hno.
  unfold process_keypress. cbv zeta.
  destruct (is_motion key); [tauto|].
  rewrite (bool_decide_eq_false_2 (key = 10 \/ key = 13)) by tauto.
  rewrite (bool_decide_eq_false_2 (key = 127 \/ key = Key.BACKSPACE)) by tauto.
  assert (Hfin : (s0 ← Ok s; s0 ← clamp_cursor s0; Ok (true, w, scroll_if_needed w s0))
                 = Ok (true, w, s)).
  { rewrite (finish_on_valid w (Ok s) s) by done. by rewrite scroll_if_needed_id. }
  case_bool_decide; [done|].
  rewrite (bool_decide_eq_false_2 (key = 24)) by tauto.
  rewrite (bool_decide_eq_false_2 (key = 19)) by tauto.
  by rewrite (bool_decide_eq_false_2 (32 <= key <= 126)) by tauto.
Qed.

Lemma keys_without_action_change_nothing_witness :
  valid (editing [Py.str "ab"] 1 0) /\
  scroll_inv (terminal 24 80 0) (editing [Py.str "ab"] 1 0) /\
  process_keypress Key.DC (terminal 24 80 0) (editing [Py.str "ab"] 1 0)
    = Ok (true, terminal 24 80 0, editing [Py.str "ab"] 1 0).
Proof.
  assert (Hv : valid (editing [Py.str "ab"] 1 0)).
  { apply (bool_decide_unpack _). vm_compute. exact I. }
  assert (Hsc : scroll_inv (terminal 24 80 0) (editing [Py.str "ab"] 1 0)).
  { unfold scroll_inv. vm_compute. split; [discriminate|reflexivity]. }
  split; [exact Hv|]. split; [exact Hsc|].
  apply (keys_without_action_change_nothing Key.DC _ _ Hv Hsc).
  unfold has_action. vm_compute.
  intros [H|[H|[H|[H|[H|[H|[H|[H1 H2]]]]]]]];
    first [discriminate H | apply H2; reflexivity].
Defined.

(** ** The keys [run] keeps for itself *)

Lemma world_eta (w : world) : with_files (files w) w = w.
Proof. by destruct w. Qed.

(** X13: [q] and Ctrl+Q never reach the editor: whatever its state, the
    document, the cursor, the ModifiedFlag and the world are left as they
    were and no further key is read.  On an unmodified buffer the loop
    stops; on a modified one it goes on and only the status message changes.
    So the letter [q] cannot be typed into a document, although
    [process_keypress] would insert it. *)
Theorem q_never_reaches_the_editor (key : Z) (w : world) (c : CatEditor) :
  key = Py.ord "q" \/ key = 17 ->
  exists c',
    handle_key key w c = Ok (w, c') /\
    text (editor c') = text (editor c) /\
    cursor_x (editor c') = cursor_x (editor c) /\
    cursor_y (editor c') = cursor_y (editor c) /\
    modified (editor c') = modified (editor c) /\
    running c' = (running c && modified (editor c)) /\
    (valid (editor c) ->
     exists w1 s1,
       process_keypress (Py.ord "q") w (editor c) = Ok (true, w1, s1) /\
       text s1 <> text (editor c)).
Proof.
  intros Hkey. unfold handle_key. rewrite bool_decide_eq_true_2 by done.
  assert (Hins : valid (editor c) ->
            exists w1 s1,
              process_keypress (Py.ord "q") w (editor c) = Ok (true, w1, s1) /\
              text s1 <> text (editor c)).
  { intros Hv. destruct (valid_line _ Hv) as (l & Hl & Hy & Hx).
    unfold process_keypress. cbv zeta.
    change (is_motion (Py.ord "q")) with false. cbv iota.
    change (Py.ord "q") with 113.
    rewrite !(bool_decide_eq_false_2 (113 = _ \/ 113 = _))
      by (unfold Key.BACKSPACE; lia).
    rewrite (bool_decide_eq_false_2 (113 = Key.DC)) by (unfold Key.DC; lia).
    rewrite (bool_decide_eq_false_2 (113 = 24)), (bool_decide_eq_false_2 (113 = 19))
      by lia.
    rewrite (bool_decide_eq_true_2 (32 <= 113 <= 126)) by lia.
    destruct (insert_char_keeps_valid (editor c) 113 Hv) as (s1 & Hs1 & Hv1); [lia|].
    rewrite (finish_on_valid w _ s1) by done.
    do 2 eexists. split; [reflexivity|].
    destruct (scroll_if_needed_frame w s1) as (-> & _).
    rewrite (insert_char_valid (editor c) 113 l) in Hs1 by (done || lia).
    injection Hs1 as <-. simpl. intros Heq.
    assert (Hlk : <[row (editor c) := take (col (editor c)) l
                      ++ 113 :: drop (col (editor c)) l]> (text (editor c))
                    !! row (editor c) = Some l) by (by rewrite Heq).
    rewrite list_lookup_insert_eq in Hlk
      by (unfold row, Py.len in *; lia).
    injection Hlk as Hlk. apply (f_equal length) in Hlk.
    rewrite length_app in Hlk. simpl in Hlk.
    rewrite <- (take_drop (col (editor c)) l) in Hlk at 3.
    rewrite length_app in Hlk. lia. }
  destruct (modified (editor c)) eqn:Hm; eexists; (split; [reflexivity|]); simpl;
    rewrite ?Hm, ?andb_true_r, ?andb_false_r; done.
Qed.

Lemma q_never_reaches_the_editor_witness :
  exists c',
    handle_key (Py.ord "q") (terminal 24 80 0)
      (mkCatEditor (with_modified true (editing [Py.str "ab"] 1 0)) true)
      = Ok (terminal 24 80 0, c') /\
    text (editor c') = [Py.str "ab"] /\ running c' = true.
Proof.
  destruct (q_never_reaches_the_editor (Py.ord "q") (terminal 24 80 0)
              (mkCatEditor (with_modified true (editing [Py.str "ab"] 1 0)) true))
    as (c' & Hk & Ht & _ & _ & _ & Hr & _); [by left|].
  exists c'. split; [exact Hk|]. split; [exact Ht|exact Hr].
Defined.

(** ** Ctrl+S on a buffer with no file name *)

(** X14: Ctrl+S on a valid state with no file name, the cursor inside the
    scroll window, writes nothing and changes nothing: the store, the
    document, the ModifiedFlag and also the status message are as before, so
    nothing tells that the buffer was not saved. *)
Theorem save_key_without_file_name (w : world) (s : TextEditor) :
  valid s -> scroll_inv w s -> named (filename s) = None ->
  process_keypress 19 w s = Ok (true, w, s).
Proof.
  intros Hv Hsc Hn. unfold process_keypress. cbv zeta.
  change (is_motion 19) with false. cbv iota.
  rewrite !(bool_decide_eq_false_2 (19 = _ \/ 19 = _)) by (unfold Key.BACKSPACE; lia).
  rewrite (bool_decide_eq_false_2 (19 = Key.DC)) by (unfold Key.DC; lia).
  rewrite (bool_decide_eq_false_2 (19 = 24)) by lia.
  rewrite (bool_decide_eq_true_2 (19 = 19)) by done.
  unfold save_file. rewrite Hn. rewrite world_eta.
  rewrite (finish_on_valid w (Ok s) s) by done. by rewrite scroll_if_needed_id.
Qed.

Lemma save_key_without_file_name_witness :
  valid (with_modified true (editing [Py.str "ab"] 1 0)) /\
  process_keypress 19 (terminal 24 80 0) (with_modified true (editing [Py.str "ab"] 1 0))
    = Ok (true, terminal 24 80 0, with_modified true (editing [Py.str "ab"] 1 0)).
Proof.
  assert (Hv : valid (with_modified true (editing [Py.str "ab"] 1 0))).
  { apply (bool_decide_unpack _). vm_compute. exact I. }
  split; [exact Hv|].
  apply (save_key_without_file_name _ _ Hv); [|reflexivity].
  unfold scroll_inv. vm_compute. split; [discriminate|reflexivity].
Defined.

(** ** What a session leaves can be saved and read back *)

(** X15: In a session that starts on a document with a line, on a terminal
    that passes the size guard, whatever keys were handled in [run], a save
    that succeeds writes a file that reads back as the very lines of the
    document: the text of the file splits into them, and [load_file] of an
    editor on that file name returns them when the file may be read. *)
Theorem session_document_round_trips
    (w w' : world) (name : option string) (c c' : CatEditor) (turns : nat)
    (fs' : gmap string node) (e' : TextEditor) :
  height w >= 10 -> width w >= 50 ->
  CatEditor_init w name = Ok c -> text (editor c) <> [] ->
  run turns w c = Ok (w', c') ->
  save_file (files w') (editor c') = Ok (true, fs', e') ->
  map Py.rstrip_lf (readlines (file_of_lines (text (editor c'))))
    = text (editor c') /\
  exists path r wr,
    named (filename (editor c')) = Some path /\
    fs' !! path = Some (Regular (file_of_lines (text (editor c'))) r wr) /\
    (r = true ->
     exists e'', load_file fs' e' = Ok e'' /\ text e'' = text (editor c')).
Proof.
  intros _ _ Hinit Hne Hrun Hsave.
  destruct (CatEditor_init_valid w name c Hinit Hne) as (Hv & Hnf & _).
  destruct (run_on_valid turns w c Hv Hnf) as (w0 & c0 & Hr & _ & Hnf' & _).
  rewrite Hrun in Hr. injection Hr as <- <-.
  pose proof (readlines_file_of_lines _ Hnf') as Hrt.
  split; [done|].
  destruct (save_file_frame _ _ _ _ _ Hsave) as (Ht & _ & _ & _ & Hf & _).
  unfold save_file in Hsave.
  destruct (named (filename (editor c'))) as [path|] eqn:Hn; [|done].
  destruct (save_body (files w') path (text (editor c'))) as [fs1|x] eqn:Hb; [|done].
  injection Hsave as <- <-.
  destruct (save_body_content _ _ _ _ Hb) as (r & wr & Hfile & _).
  exists path, r, wr. split; [done|]. split; [done|].
  intros ->. unfold load_file, open_read. simpl. rewrite Hn, Hfile.
  eexists. split; [reflexivity|]. done.
Qed.

Lemma session_document_round_trips_witness :
  let w := mkWorld ∅ 24 80 (fun n => if Nat.even n then Py.ord "a" else 13) 0 in
  exists c w' c' fs' e' e'',
    CatEditor_init w (Some "notes.txt") = Ok c /\
    run 3 w c = Ok (w', c') /\
    text (editor c') = [Py.str "a"; Py.str "a"] /\
    save_file (files w') (editor c') = Ok (true, fs', e') /\
    load_file fs' e' = Ok e'' /\ text e'' = [Py.str "a"; Py.str "a"].
Proof.
  intros w.
  set (c := mkCatEditor (mkTextEditor (Some "notes.txt") [[]] 0 0 0
                           "New file: notes.txt" 5 false) true).
  set (c' := mkCatEditor (mkTextEditor (Some "notes.txt") [Py.str "a"; Py.str "a"]
                            1 1 0 "New file: notes.txt" 5 true) true).
  set (w' := mkWorld ∅ 24 80 (fun n => if Nat.even n then Py.ord "a" else 13) 3).
  set (fs' := <["notes.txt" := Regular (Py.str "a" ++ [Py.LF] ++ Py.str "a" ++ [Py.LF])
                                 true true]> (∅ : gmap string node)).
  set (e' := mkTextEditor (Some "notes.txt") [Py.str "a"; Py.str "a"]
               1 1 0 "Saved: notes.txt" 5 false).
  assert (Hinit : CatEditor_init w (Some "notes.txt") = Ok c) by (vm_compute; reflexivity).
  assert (Hrun : run 3 w c = Ok (w', c')) by (vm_compute; reflexivity).
  assert (Hsave : save_file (files w') (editor c') = Ok (true, fs', e'))
    by (vm_compute; reflexivity).
  destruct (session_document_round_trips w w' (Some "notes.txt") c c' 3 fs' e')
    as (_ & path & r & wr & Hn & Hfile & Hload);
    [simpl; lia | simpl; lia | exact Hinit | discriminate | exact Hrun | exact Hsave |].
  injection Hn as <-. unfold fs' in Hfile. rewrite lookup_insert_eq in Hfile.
  injection Hfile as <- <-.
  destruct (Hload eq_refl) as (e'' & He'' & Ht).
  exists c, w', c', fs', e', e''.
  split; [exact Hinit|]. split; [exact Hrun|]. split; [reflexivity|].
  split; [exact Hsave|]. split; [exact He''|exact Ht].
Defined.

(** ** The height of the editor area *)

(** X16: The editor area has at least 5 rows and never more than the
    document has lines plus 5.  It is the document plus 5 rows as long as
    that leaves 8 rows of the terminal free, then what the terminal leaves
    after those 8 rows; it does not shrink when the document or the terminal
    grows. *)
Theorem editor_space_bounds (w : world) (s : TextEditor) :
  5 <= calculate_editor_space w s <= Py.len (text s) + 5 /\
  (Py.len (text s) + 5 <= height w - 8 ->
     calculate_editor_space w s = Py.len (text s) + 5) /\
  (5 <= height w - 8 <= Py.len (text s) + 5 ->
     calculate_editor_space w s = height w - 8) /\
  (forall w' s', height w <= height w' -> Py.len (text s) <= Py.len (text s') ->
     calculate_editor_space w s <= calculate_editor_space w' s').
Proof.
  unfold calculate_editor_space, min_editor_lines, cat_head_height,
    cat_bottom_height, Py.len.
  repeat split; intros; lia.
Qed.
